(** * Verification of the case-study generator and the document processor

    Shallow embedding of [src/ai/generator.py] and of the parts of
    [src/processors/document_processor.py] used by the case-study pipeline.

    Modelling conventions.
    - Python [str] values are modelled as Rocq [string]s over ASCII
      characters; a Python character is one [ascii].  Character classes
      ([\s], [\d], [str.isupper], ...) are exact on this alphabet.
    - Python [int]s are [Z]; lengths are [Z.of_nat (String.length s)].
    - The image scores of [select_key_images] are Python floats whose values
      are all multiples of [0.5] of small magnitude, hence exact; the model
      keeps twice the score as a [Z].
    - Dictionaries read with [.get(key, default)] are records whose absent
      keys are [None]; the JSON returned by the generative backend is the
      inductive [json]. *)

From Stdlib Require Import ZArith List Bool Ascii String Lia.
From Stdlib Require Import Permutation Sorted.
Import ListNotations.
Open Scope bool_scope.
Set Warnings "-register-all".

(* ------------------------------------------------------------------ *)
(** ** Python string primitives *)

Module PyStr.
Open Scope string_scope.

Definition asc_nat (c : ascii) : nat := nat_of_ascii c.

(** [str.isspace] / regex [\s] on ASCII: tab, LF, VT, FF, CR, the
    separators 0x1C-0x1F and the space. *)
Definition is_space (c : ascii) : bool :=
  let n := asc_nat c in
  ((9 <=? n) && (n <=? 13))%nat || ((28 <=? n) && (n <=? 32))%nat.

Definition is_digit (c : ascii) : bool :=
  let n := asc_nat c in ((48 <=? n) && (n <=? 57))%nat.

Definition is_upper (c : ascii) : bool :=
  let n := asc_nat c in ((65 <=? n) && (n <=? 90))%nat.

Definition is_lower (c : ascii) : bool :=
  let n := asc_nat c in ((97 <=? n) && (n <=? 122))%nat.

Definition ascii_lower (c : ascii) : ascii :=
  if is_upper c then ascii_of_nat (asc_nat c + 32) else c.

Fixpoint lower (s : string) : string :=
  match s with
  | EmptyString => EmptyString
  | String c t => String (ascii_lower c) (lower t)
  end.

Definition py_len (s : string) : Z := Z.of_nat (String.length s).

(** [needle in hay]. *)
Fixpoint contains (needle hay : string) : bool :=
  prefix needle hay ||
  match hay with
  | EmptyString => false
  | String _ t => contains needle t
  end.

(** [s[:n]] and [s[n:]] for [n >= 0]. *)
Definition take (n : nat) (s : string) : string := substring 0 n s.
Definition drop (n : nat) (s : string) : string :=
  substring n (String.length s - n) s.

(** [s[a:b]] for [0 <= a]. *)
Definition slice (a b : nat) (s : string) : string := take (b - a) (drop a s).

(** [s[-n:]] for [n > 0]. *)
Definition last_chars (n : nat) (s : string) : string :=
  drop (String.length s - n) s.

Fixpoint lstrip_by (p : ascii -> bool) (s : string) : string :=
  match s with
  | EmptyString => EmptyString
  | String c t => if p c then lstrip_by p t else s
  end.

Fixpoint rev_str (s : string) (acc : string) : string :=
  match s with
  | EmptyString => acc
  | String c t => rev_str t (String c acc)
  end.

Definition reverse (s : string) : string := rev_str s EmptyString.

(** [str.strip()] and [str.lstrip(chars)]. *)
Definition strip (s : string) : string :=
  reverse (lstrip_by is_space (reverse (lstrip_by is_space s))).

Definition lstrip_chars (chars s : string) : string :=
  lstrip_by (fun c => contains (String c EmptyString) chars) s.

Definition is_blank (s : string) : bool :=
  match strip s with EmptyString => true | _ => false end.

Definition startswith (s p : string) : bool := prefix p s.
Definition endswith (s p : string) : bool := prefix (reverse p) (reverse s).

(** [s.split(sep)] for a one-character separator: keeps empty fields. *)
Fixpoint split_char_aux (sep : ascii) (s : string) (cur : string)
  : list string :=
  match s with
  | EmptyString => [reverse cur]
  | String c t =>
      if Ascii.eqb c sep then reverse cur :: split_char_aux sep t EmptyString
      else split_char_aux sep t (String c cur)
  end.

Definition split_char (sep : ascii) (s : string) : list string :=
  split_char_aux sep s EmptyString.

Definition split_lines (s : string) : list string := split_char "010"%char s.

(** [s.split()] with no argument: fields separated by whitespace runs,
    empty fields dropped. *)
Definition split_ws (s : string) : list string :=
  filter (fun w => negb (String.eqb w EmptyString))
    (split_char_aux " "%char
       (String.concat "" (map (fun c => String (if is_space c then " "%char else c) EmptyString)
          (list_ascii_of_string s))) EmptyString).

(** [sep.join(xs)]. *)
Definition join (sep : string) (xs : list string) : string := String.concat sep xs.

Fixpoint repeat_char (n : nat) (c : ascii) : string :=
  match n with
  | O => EmptyString
  | S k => String c (repeat_char k c)
  end.

End PyStr.

(* ------------------------------------------------------------------ *)
(** ** Data model of [src/ai/generator.py] *)

Module Generator.
Import PyStr.
Open Scope string_scope.

(** Values produced by [json.loads]. *)
Inductive json : Type :=
| JNull
| JBool (b : bool)
| JNum (n : Z)
| JStr (s : string)
| JArr (xs : list json)
| JObj (kvs : list (string * json)).

(** A Python [dict] with string keys, in insertion order. *)
Definition dict := list (string * json).

Fixpoint dict_get (d : dict) (k : string) : option json :=
  match d with
  | [] => None
  | (k', v) :: t => if String.eqb k k' then Some v else dict_get t k
  end.

(** [d[k] = v]: replaces in place, or appends a new key. *)
Fixpoint dict_set (d : dict) (k : string) (v : json) : dict :=
  match d with
  | [] => [(k, v)]
  | (k', v') :: t =>
      if String.eqb k k' then (k', v) :: t else (k', v') :: dict_set t k v
  end.

(** Python truthiness of a JSON value. *)
Definition truthy (v : json) : bool :=
  match v with
  | JNull => false
  | JBool b => b
  | JNum n => negb (Z.eqb n 0)
  | JStr s => negb (String.eqb s "")
  | JArr xs => negb (Nat.eqb (List.length xs) 0)
  | JObj kvs => negb (Nat.eqb (List.length kvs) 0)
  end.

(** An extracted image: the code reads its ['caption'] key only
    ([img.get('caption', '')]); [img_id] stands for the other keys. *)
Record image := mk_image { img_id : string; img_caption : string }.

Definition image_json (i : image) : json :=
  JObj [("id", JStr (img_id i)); ("caption", JStr (img_caption i))].

Record section := mk_section { sec_title : string; sec_content : string }.

(** [structured_content]: [sc_title] is [None] when the key is absent or
    holds [None]; absent lists are empty lists ([.get(k, [])]). *)
Record structured := mk_structured {
  sc_title : option string;
  sc_sections : list section;
  sc_key_points : list string }.

(** [document_data]: one optional field per key the code reads. *)
Record doc_data := mk_doc {
  dd_text : option string;
  dd_images : option (list image);
  dd_structured : option structured;
  dd_file_type : option string;
  dd_file_size : option Z;
  dd_skip_ai : option bool }.

Definition empty_doc : doc_data := mk_doc None None None None None None.

Definition get_text (d : doc_data) : string :=
  match dd_text d with Some t => t | None => "" end.
Definition get_images (d : doc_data) : list image :=
  match dd_images d with Some l => l | None => [] end.
Definition get_file_type (d : doc_data) : string :=
  match dd_file_type d with Some t => t | None => "" end.
Definition get_file_size (d : doc_data) : Z :=
  match dd_file_size d with Some n => n | None => 0 end.
Definition get_skip_ai (d : doc_data) : bool :=
  match dd_skip_ai d with Some b => b | None => false end.
Definition get_sections (d : doc_data) : list section :=
  match dd_structured d with Some sc => sc_sections sc | None => [] end.
Definition get_key_points (d : doc_data) : list string :=
  match dd_structured d with Some sc => sc_key_points sc | None => [] end.

(** [not document_data] for a dict: no key at all. *)
Definition dd_is_empty (d : doc_data) : bool :=
  match d with
  | mk_doc None None None None None None => true
  | _ => false
  end.

(** The argument of [generate_case_study]: [None] or any other non-dict
    value, or a dict. *)
Inductive doc_input := DNone | DNonDict | DDict (d : doc_data).

(* ------------------------------------------------------------------ *)
(** ** [select_key_images] (generator.py, lines 641-717) *)

Definition six_fields : list string :=
  ["title"; "challenge"; "approach"; "solution"; "outcomes"; "summary"].

(** [case_study.get(k, '')] as an argument of [" ".join]: [None] when the
    value is not a string, which makes [join] raise [TypeError]. *)
Definition field_text (cs : dict) (k : string) : option string :=
  match dict_get cs k with
  | None => Some ""
  | Some (JStr s) => Some s
  | Some _ => None
  end.

Fixpoint all_some (xs : list (option string)) : option (list string) :=
  match xs with
  | [] => Some []
  | Some x :: t => match all_some t with Some l => Some (x :: l) | None => None end
  | None :: _ => None
  end.

(** [case_study_text]; [None] when computing it raises. *)
Definition case_study_text (cs : json) : option string :=
  if truthy cs then
    match cs with
    | JObj kvs =>
        match all_some (map (field_text kvs) six_fields) with
        | Some parts => Some (lower (join " " parts))
        | None => None
        end
    | _ => None (* [.get] on a non-dict raises [AttributeError] *)
    end
  else Some "".

Definition page_bonus (caption : string) : Z :=
  if contains "slide 1" caption || contains "page 1" caption
     || contains "cover" caption then 100
  else if contains "slide 2" caption || contains "page 2" caption then 80
  else if existsb (fun n => contains ("slide " ++ n) caption) ["3"; "4"; "5"]
          || existsb (fun n => contains ("page " ++ n) caption) ["3"; "4"; "5"]
  then 60
  else 0.

Definition relevance_bonus (cs_text caption : string) : Z :=
  if negb (String.eqb cs_text "") && negb (String.eqb caption "") then
    10 * Z.of_nat (List.length
      (filter (fun w => contains w cs_text)
         (filter (fun w => (4 <? String.length w)%nat) (split_ws caption))))
  else 0.

Definition diagram_keywords : list string :=
  ["diagram"; "chart"; "graph"; "figure"; "process"; "workflow";
   "infographic"; "results"].

Definition decorative_keywords : list string :=
  ["icon"; "bullet"; "background"; "decoration"].

Definition keyword_bonus (caption : string) : Z :=
  (if existsb (fun k => contains k (lower caption)) diagram_keywords then 50 else 0)
  - (if existsb (fun k => contains k (lower caption)) decorative_keywords then 50 else 0).

(** Everything but the position score. *)
Definition caption_bonus (cs_text caption : string) : Z :=
  page_bonus caption + relevance_bonus cs_text caption + keyword_bonus caption.

(** Twice the Python score of the image at index [i]. *)
Definition score2 (cs_text : string) (i : nat) (img : image) : Z :=
  Z.max 0 (100 - Z.of_nat i) + 2 * caption_bonus cs_text (lower (img_caption img)).

Fixpoint score_all (cs_text : string) (i : nat) (imgs : list image)
  : list (Z * image) :=
  match imgs with
  | [] => []
  | img :: t => (score2 cs_text i img, img) :: score_all cs_text (S i) t
  end.

(** [list.sort(reverse=True, key=lambda x: x[0])] is stable: an element
    goes after the ones with a strictly greater key. *)
Fixpoint insert_desc (x : Z * image) (l : list (Z * image)) : list (Z * image) :=
  match l with
  | [] => [x]
  | y :: t => if (fst x <? fst y)%Z then y :: insert_desc x t else x :: l
  end.

Fixpoint sort_desc (l : list (Z * image)) : list (Z * image) :=
  match l with
  | [] => []
  | x :: t => insert_desc x (sort_desc t)
  end.

(** [None] when the function raises. *)
Definition select_key_images (images : list image) (case_study : json)
  (max_images : nat) : option (list image) :=
  match images with
  | [] => Some []
  | _ =>
      if (List.length images <=? max_images)%nat then Some images
      else
        match case_study_text case_study with
        | None => None
        | Some text =>
            Some (map snd (firstn max_images (sort_desc (score_all text 0 images))))
        end
  end.


(* ------------------------------------------------------------------ *)
(** ** [_generate_fallback_case_study] (generator.py, lines 463-639) *)

(** [str.istitle()] on ASCII: upper-case letters only after uncased
    characters, lower-case letters only after cased ones, and at least one
    cased character. *)
Fixpoint istitle_aux (s : string) (prev_cased cased : bool) : bool :=
  match s with
  | EmptyString => cased
  | String c t =>
      if is_upper c then (if prev_cased then false else istitle_aux t true true)
      else if is_lower c then (if prev_cased then istitle_aux t true true else false)
      else istitle_aux t false cased
  end.

Definition istitle (s : string) : bool := istitle_aux s false false.

Definition isupper (s : string) : bool :=
  existsb is_upper (list_ascii_of_string s)
  && negb (existsb is_lower (list_ascii_of_string s)).

(** The footer markers; the list of the source also holds the non-ASCII
    copyright sign, which no ASCII line contains. *)
Definition footer_texts : list string :=
  ["confidential"; "page"; "copyright"; "all rights reserved"; "footer"].

Definition first_is_upper (w : string) : bool :=
  match w with String c _ => is_upper c | EmptyString => false end.

Definition looks_like_title (line : string) : bool :=
  let words := split_ws line in
  (List.length words <=? 10)%nat
  && (istitle line || isupper line
      || existsb (fun w => negb (String.eqb w "") && (1 <? String.length w)%nat
                           && first_is_upper w) words).

(** [slide_content]: an insertion-ordered dict from titles to lines. *)
Definition slide_dict := list (string * list string).

(** [slide_content[k] = []]: an existing key keeps its position. *)
Definition od_reset (k : string) (od : slide_dict) : slide_dict :=
  if existsb (fun kv => String.eqb (fst kv) k) od
  then map (fun kv => if String.eqb (fst kv) k then (k, []) else kv) od
  else (od ++ [(k, [])])%list.

(** [slide_content[k].append(line)]. *)
Definition od_append (k line : string) (od : slide_dict) : slide_dict :=
  map (fun kv => if String.eqb (fst kv) k then (fst kv, (snd kv ++ [line])%list) else kv) od.

Record pass1_state := mk_pass1 {
  p1_titles : list string;
  p1_content : slide_dict;
  p1_current : option string }.

(** One iteration of the first PPTX pass (lines 508-530). *)
Definition pass1_step (st : pass1_state) (raw : string) : pass1_state :=
  let line := strip raw in
  if String.eqb line "" then st
  else if existsb (fun f => contains f (lower line)) footer_texts then st
  else if (String.length line <? 60)%nat && negb (endswith line ".") then
    if looks_like_title line then
      mk_pass1 (p1_titles st ++ [line])%list (od_reset line (p1_content st)) (Some line)
    else st
  else
    match p1_current st with
    | Some t => mk_pass1 (p1_titles st) (od_append t line (p1_content st)) (p1_current st)
    | None => st
    end.

Definition pass1 (text : string) : pass1_state :=
  fold_left pass1_step (split_lines text) (mk_pass1 [] [] None).

Definition challenge_keywords : list string :=
  ["challenge"; "problem"; "issue"; "background"; "overview"; "introduction"].
Definition approach_keywords : list string :=
  ["approach"; "methodology"; "strategy"; "process"; "plan"].
Definition solution_keywords : list string :=
  ["solution"; "implementation"; "platform"; "technology"; "product"].
Definition outcomes_keywords : list string :=
  ["outcomes"; "results"; "benefits"; "impact"; "conclusion"; "success"].

Record buckets := mk_buckets {
  b_challenge : list string; b_approach : list string;
  b_solution : list string; b_outcomes : list string }.

Definition any_in (kws : list string) (s : string) : bool :=
  existsb (fun k => contains k s) kws.

(** One iteration of the second pass (lines 538-557). *)
Definition pass2_step (b : buckets) (kv : string * list string) : buckets :=
  let '(title, content) := kv in
  let lt := lower title in
  let '(mk_buckets ch ap so ou) := b in
  if any_in challenge_keywords lt then mk_buckets (ch ++ content)%list ap so ou
  else if any_in approach_keywords lt then mk_buckets ch (ap ++ content)%list so ou
  else if any_in solution_keywords lt then mk_buckets ch ap (so ++ content)%list ou
  else if any_in outcomes_keywords lt then mk_buckets ch ap so (ou ++ content)%list
  else if (List.length ch <? 3)%nat then mk_buckets (ch ++ content)%list ap so ou
  else if (List.length ap <? 3)%nat then mk_buckets ch (ap ++ content)%list so ou
  else if (List.length so <? 3)%nat then mk_buckets ch ap (so ++ content)%list ou
  else mk_buckets ch ap so (ou ++ content)%list.

Record cs_fields := mk_fields {
  f_challenge : string; f_approach : string; f_solution : string;
  f_outcomes : string; f_summary : string; f_key_points : list string }.

Definition default_challenge := "Analysis of the provided document content.".
Definition default_approach := "Document processing and content extraction.".
Definition default_solution := "Automated extraction of key information from the document.".
Definition default_outcomes := "Generated report based on document analysis.".
Definition default_summary := "This report was automatically generated from the document content.".
Definition default_title := "Document Analysis Report".
Definition default_key_points : list string :=
  ["Document processed successfully"; "Content extracted and analyzed";
   "Report generated from content"].

Definition nonempty {A} (l : list A) : bool :=
  match l with [] => false | _ => true end.

Definition if_some (l : list string) (dflt : string) : string :=
  if nonempty l then take 800 (join " " l) else dflt.

Definition is_bullet (line : string) : bool :=
  startswith line "-" || startswith line "*".

(** The PPTX branch (lines 494-597); also returns the four buckets, which
    decide whether the section-based extraction runs. *)
Definition pptx_fields (text : string) (key_points : list string)
  : cs_fields * buckets :=
  let st := pass1 text in
  let b := fold_left pass2_step (p1_content st) (mk_buckets [] [] [] []) in
  let '(mk_buckets ch ap so ou) := b in
  let summary_parts :=
    ((if nonempty ch then [join " " (firstn 2 ch)] else [])
    ++ (if nonempty so then [join " " (firstn 2 so)] else []))%list in
  let summary :=
    if nonempty summary_parts then take 400 (join " " summary_parts)
    else default_summary in
  let titles := p1_titles st in
  let title_points :=
    if (3 <? List.length titles)%nat then
      firstn 5 (filter (fun t => negb (any_in ["agenda"; "content"; "overview"; "thank"]
                                               (lower t))) titles)
    else [] in
  let bullet_points :=
    flat_map (fun lst => map (lstrip_chars "-* ") (filter is_bullet lst)) [ch; so; ou] in
  let all_key_points := (title_points ++ bullet_points)%list in
  let kps :=
    if nonempty all_key_points then
      firstn 5 (filter (fun kp => (15 <? String.length kp)%nat
                                  && (String.length kp <? 100)%nat) all_key_points)
    else key_points in
  (mk_fields (if_some ch default_challenge) (if_some ap default_approach)
     (if_some so default_solution) (if_some ou default_outcomes) summary kps, b).

(** The section-based extraction (lines 600-617). *)
Definition section_fields (sections : list section) (f : cs_fields) : cs_fields :=
  if nonempty sections then
    let sc := filter (fun c => negb (String.eqb c "")) (map sec_content sections) in
    let pick n dflt := match nth_error sc n with Some c => take 800 c | None => dflt end in
    mk_fields (pick 0 (f_challenge f)) (pick 1 (f_approach f)) (pick 2 (f_solution f))
      (pick 3 (f_outcomes f)) (join " " (map (take 150) (firstn 3 sc))) (f_key_points f)
  else f.

Definition fallback_title (d : doc_data) : string :=
  match dd_structured d with
  | Some sc =>
      match sc_title sc with
      | Some t => if String.eqb t "" then default_title else t
      | None => default_title
      end
  | None => default_title
  end.

(** The title the function returns.  In the PPTX branch the loop of
    line 538, [for title, content in slide_content.items()], rebinds
    [title]: when [slide_content] has a key, the title is its last key. *)
Definition fallback_final_title (d : doc_data) : string :=
  if String.eqb (lower (get_file_type d)) "pptx" then
    match rev (p1_content (pass1 (get_text d))) with
    | (k, _) :: _ => k
    | [] => fallback_title d
    end
  else fallback_title d.

(** [None] when the function raises. *)
Definition _generate_fallback_case_study (d : doc_data) (audience : string)
  : option dict :=
  let extracted_text := get_text d in
  let images := get_images d in
  let title := fallback_final_title d in
  let is_pptx := String.eqb (lower (get_file_type d)) "pptx" in
  let sections := get_sections d in
  let key_points := get_key_points d in
  let defaults := mk_fields default_challenge default_approach default_solution
                    default_outcomes default_summary key_points in
  let f :=
    if is_pptx then
      let '(f1, mk_buckets ch ap so ou) := pptx_fields extracted_text key_points in
      if nonempty ch || nonempty ap || nonempty so || nonempty ou then f1
      else section_fields sections f1
    else section_fields sections defaults in
  match select_key_images images
          (JObj [("challenge", JStr (f_challenge f)); ("approach", JStr (f_approach f));
                 ("solution", JStr (f_solution f)); ("outcomes", JStr (f_outcomes f))]) 3
  with
  | None => None
  | Some selected =>
      Some [("title", JStr title);
            ("challenge", JStr (f_challenge f));
            ("approach", JStr (f_approach f));
            ("solution", JStr (f_solution f));
            ("outcomes", JStr (f_outcomes f));
            ("summary", JStr (f_summary f));
            ("key_points", JArr (map JStr (if nonempty (f_key_points f)
                                           then f_key_points f else default_key_points)));
            ("images", JArr (map image_json selected))]
  end.


(* ------------------------------------------------------------------ *)
(** ** [generate_case_study] (generator.py, lines 36-191)

    Every path of the [try] block of lines 142-191 returns, so the retry
    loop of lines 193-343 is unreachable and is not part of the model. *)

Open Scope Z_scope.

(** The exceptions of the client call. *)
Inductive api_error :=
| ApiTimeout
| ApiConnection
| ApiRateLimit
| ApiOther (message : string).

(** What the backend does for one request, as seen from the generation
    thread: the call raises, or it answers with a content that [json.loads]
    parses ([Some v]) or rejects ([None]), or it is still running when the
    [join] timeout of line 169 expires. *)
Inductive call_outcome :=
| CallRaises (e : api_error)
| CallReturns (parsed : option json)
| CallOutlivesJoin.

(** The configured client, as a function of the arguments of
    [_generate_with_openai]: text, audience and [is_large_input]. *)
Definition backend := string -> string -> bool -> call_outcome.

(** [_generate_with_openai] (lines 346-460): every exception and every
    JSON decoding error gives [None]. *)
Definition _generate_with_openai (client : backend) (text audience : string)
  (is_large : bool) : option json :=
  match client text audience is_large with
  | CallReturns (Some v) => Some v
  | _ => None
  end.

(** The item the thread puts in [result_queue]. *)
Inductive queue_item := QSuccess (result : dict) | QError.

(** [openai_generation] (lines 147-160); an exception becomes [QError]. *)
Definition openai_generation (client : backend) (text audience : string)
  (is_large : bool) (images : list image) : queue_item :=
  match _generate_with_openai client text audience is_large with
  | Some ai_result =>
      if truthy ai_result then
        match select_key_images images ai_result 3 with
        | None => QError
        | Some selected =>
            match ai_result with
            | JObj kvs => QSuccess (dict_set kvs "images" (JArr (map image_json selected)))
            | _ => QError (* item assignment on a non-dict raises *)
            end
        end
      else QError
  | None => QError
  end.

Definition nl : string := String (ascii_of_nat 10) EmptyString.

Definition content_marker : string := "[...content truncated...]".
Definition most_content_marker : string := "[...most content truncated...]".

(** [s[:n]], [s[a:b]] and [s[-n:]] with integer arguments. *)
Definition ztake (n : Z) (s : string) : string := take (Z.to_nat n) s.
Definition zslice (a b : Z) (s : string) : string := slice (Z.to_nat a) (Z.to_nat b) s.
Definition zlast (n : Z) (s : string) : string := last_chars (Z.to_nat n) s.

Definition compact_piece (sec : section) : string :=
  if negb (String.eqb (sec_title sec) "") && negb (String.eqb (sec_content sec) "")
  then nl ++ "## " ++ sec_title sec ++ nl ++ ztake 600 (sec_content sec) ++ nl
  else "".

(** [keep_sections] of lines 93-104. *)
Definition keep_sections (sections : list section) : list section :=
  let n := List.length sections in
  (firstn 5 sections
   ++ (if (15 <? n)%nat then firstn 3 (skipn (n / 3) sections) else [])
   ++ skipn (n - 5) sections)%list.

Definition compact_text (sections : list section) : string :=
  String.concat "" (map compact_piece (keep_sections sections)).

(** The positional truncation of lines 121-132. *)
Definition positional_truncation (text : string) : string :=
  let len := py_len text in
  let first_part := ztake 10000 text in
  if len <? 100000 then
    let middle_start := len / 2 - 1000 in
    let middle_part := zslice middle_start (middle_start + 2000) text in
    let last_part := zlast 5000 text in
    first_part ++ nl ++ nl ++ content_marker ++ nl ++ nl ++ middle_part
      ++ nl ++ nl ++ content_marker ++ nl ++ nl ++ last_part
  else
    let last_part := zlast 5000 text in
    first_part ++ nl ++ nl ++ most_content_marker ++ nl ++ nl ++ last_part.

(** The truncation of a large input (lines 84-134). *)
Definition truncate_large_input (text : string) (sections : list section) : string :=
  if nonempty sections && (5 <? List.length sections)%nat then
    let c := compact_text sections in
    if 1000 <? py_len c then c else text
  else positional_truncation text.

(** [is_large_input] of line 82. *)
Definition is_large_input (d : doc_data) : bool := 20000 <? py_len (get_text d).

(** The text [openai_generation] receives (lines 82-134). *)
Definition prepared_text (d : doc_data) : string :=
  if is_large_input d then truncate_large_input (get_text d) (get_sections d)
  else get_text d.

(** One run of [generate_case_study]: its result ([None] when it raises)
    and the texts handed to the generative backend, in call order.
    [openai] is the module-level client, [None] when unconfigured. *)
Definition generate_case_study (openai : option backend) (input : doc_input)
  (audience : string) : option dict * list string :=
  match input with
  | DNone | DNonDict => (_generate_fallback_case_study empty_doc audience, [])
  | DDict d =>
      if dd_is_empty d then (_generate_fallback_case_study empty_doc audience, [])
      else if get_skip_ai d then (_generate_fallback_case_study d audience, [])
      else if 100 * 1024 * 1024 <? get_file_size d then
        (_generate_fallback_case_study d audience, [])
      else if String.eqb (get_text d) "" then (_generate_fallback_case_study d audience, [])
      else if 200000 <? py_len (get_text d) then
        (_generate_fallback_case_study d audience, [])
      else
        let extracted_text := prepared_text d in
        match openai with
        | None => (_generate_fallback_case_study d audience, [])
        | Some client =>
            match client extracted_text audience (is_large_input d) with
            | CallOutlivesJoin =>
                (_generate_fallback_case_study d audience, [extracted_text])
            | _ =>
                match openai_generation client extracted_text audience
                        (is_large_input d) (get_images d) with
                | QSuccess result =>
                    if nonempty result then (Some result, [extracted_text])
                    else (_generate_fallback_case_study d audience, [extracted_text])
                | QError => (_generate_fallback_case_study d audience, [extracted_text])
                end
            end
        end
  end.

End Generator.

(* ------------------------------------------------------------------ *)
(** ** [extract_structured_content] (document_processor.py, lines 479-583)

    The entity extraction (dates, organisations, people) feeds no field
    the case-study pipeline reads and is left out. *)

Module Structure.
Import PyStr Generator.
Open Scope string_scope.

(** The heading patterns, applied by [re.match] to a stripped line; the
    lines come from [text.split('\n')], so they hold no newline, and [.]
    matches every character of them. *)

(** [^#+\s+(.+)$] *)
Definition pat_markdown (s : string) : bool :=
  match s with
  | String "#" t =>
      match lstrip_by (fun c => Ascii.eqb c "#") t with
      | String c rest => is_space c && negb (String.eqb rest "")
      | EmptyString => false
      end
  | _ => false
  end.

(** [^(\d+\.[\d\.]*\s+.+)$] *)
Definition pat_numbered (s : string) : bool :=
  match s with
  | String d _ =>
      is_digit d &&
      match lstrip_by is_digit s with
      | String "." r =>
          match lstrip_by (fun c => is_digit c || Ascii.eqb c ".") r with
          | String c rest => is_space c && negb (String.eqb rest "")
          | EmptyString => false
          end
      | _ => false
      end
  | EmptyString => false
  end.

(** [^(Chapter \d+:?] then [.*] then [)$]: "Chapter " and a digit. *)
Definition pat_chapter (s : string) : bool :=
  prefix "Chapter " s &&
  match drop 8 s with String d _ => is_digit d | EmptyString => false end.

(** [^(.*:)$] *)
Definition pat_colon (s : string) : bool :=
  match reverse s with String ":" _ => true | _ => false end.

(** [^([A-Z][A-Z\s]+)$] *)
Definition pat_caps (s : string) : bool :=
  match s with
  | String c rest =>
      is_upper c && negb (String.eqb rest "")
      && forallb (fun x => is_upper x || is_space x) (list_ascii_of_string rest)
  | EmptyString => false
  end.

Definition section_patterns : list (string -> bool) :=
  [pat_markdown; pat_numbered; pat_chapter; pat_colon; pat_caps].

(** The inner loop of lines 525-532: the patterns are tried in order and
    the first that matches ends the loop. *)
Fixpoint first_match (pats : list (string -> bool)) (s : string) : bool :=
  match pats with
  | [] => false
  | p :: ps => if p s then true else first_match ps s
  end.

Definition is_heading (line : string) : bool :=
  first_match section_patterns (strip line).

Record sec_state := mk_sec_state {
  ss_sections : list section;
  ss_current : section }.

(** One iteration of the loop of lines 523-535. *)
Definition section_step (st : sec_state) (line : string) : sec_state :=
  let cur := ss_current st in
  if is_heading line then
    mk_sec_state
      (if is_blank (sec_content cur) then ss_sections st
       else (ss_sections st ++ [cur])%list)
      (mk_section (strip line) "")
  else
    mk_sec_state (ss_sections st)
      (mk_section (sec_title cur) (sec_content cur ++ line ++ nl)).

Definition extract_sections (lines : list string) : list section :=
  let st := fold_left section_step lines
              (mk_sec_state [] (mk_section "Introduction" "")) in
  if is_blank (sec_content (ss_current st)) then ss_sections st
  else (ss_sections st ++ [ss_current st])%list.

(** [sentences[0]] for [re.split(r'(?<=[.!?])\s+', s)]: the text before
    the first whitespace character that follows '.', '!' or '?'. *)
Fixpoint first_sentence_aux (after_stop : bool) (s : string) : string :=
  match s with
  | EmptyString => EmptyString
  | String c t =>
      if after_stop && is_space c then EmptyString
      else String c (first_sentence_aux
                       (Ascii.eqb c "." || Ascii.eqb c "!" || Ascii.eqb c "?") t)
  end.

Definition first_sentence (s : string) : string := first_sentence_aux false s.

(** [s.replace('\n', ' ')]. *)
Fixpoint replace_nl (s : string) : string :=
  match s with
  | EmptyString => EmptyString
  | String c t =>
      String (if Ascii.eqb c (ascii_of_nat 10) then " "%char else c) (replace_nl t)
  end.

(** Lines 562-567: short sections give a key point each. *)
Definition short_points (sections : list section) : list string :=
  flat_map (fun sec =>
              let c := strip (sec_content sec) in
              if (10 <? String.length c)%nat && (String.length c <? 200)%nat
              then [replace_nl c] else []) sections.

(** Lines 570-577: the loop over long sections, with its [break]. *)
Fixpoint long_points_loop (sections : list section) (kps : list string)
  : list string :=
  match sections with
  | [] => kps
  | sec :: rest =>
      if (200 <? String.length (sec_content sec))%nat then
        let s0 := first_sentence (sec_content sec) in
        let kps' := if (10 <? String.length s0)%nat then (kps ++ [s0])%list else kps in
        if (5 <=? List.length kps')%nat then kps' else long_points_loop rest kps'
      else long_points_loop rest kps
  end.

Definition key_points_of (sections : list section) : list string :=
  let kps := short_points sections in
  let kps := if (List.length kps <? 3)%nat then long_points_loop sections kps else kps in
  firstn 7 kps.

Definition empty_structured : structured := mk_structured None [] [].

Definition extract_structured_content (text doc_type : string) : structured :=
  if String.eqb text "" || (String.length (strip text) <? 10)%nat then empty_structured
  else
    let lines := split_lines text in
    let non_empty_lines := map strip (filter (fun l => negb (is_blank l)) lines) in
    let title := match non_empty_lines with l :: _ => Some l | [] => None end in
    let sections := extract_sections lines in
    mk_structured title sections (key_points_of sections).

End Structure.

(* ------------------------------------------------------------------ *)
(** ** [process_document] for PDF and TXT files
    (document_processor.py, lines 25-247 and 249-406) *)

Module DocProc.
Import PyStr Generator Structure.
Open Scope Z_scope.

(** *** Text decoding *)

(** A decoded Python [str] as its code points; a file as its bytes. *)
Definition codepoints := list Z.
Definition bytes := list Z.

Inductive codec := Utf8 | Latin1 | Iso8859_1 | Windows1252.
Inductive errors_mode := Strict | Replace.

Definition is_cont (b : Z) : bool := (128 <=? b) && (b <=? 191).

(** For a lead byte: the number of continuation bytes, the admissible
    range of the first one and the payload of the lead byte. *)
Definition lead_info (b : Z) : option (nat * Z * Z * Z) :=
  if (194 <=? b) && (b <=? 223) then Some (1%nat, 128, 191, b - 192)
  else if b =? 224 then Some (2%nat, 160, 191, 0)
  else if (225 <=? b) && (b <=? 236) then Some (2%nat, 128, 191, b - 224)
  else if b =? 237 then Some (2%nat, 128, 159, 13)
  else if (238 <=? b) && (b <=? 239) then Some (2%nat, 128, 191, b - 224)
  else if b =? 240 then Some (3%nat, 144, 191, 0)
  else if (241 <=? b) && (b <=? 243) then Some (3%nat, 128, 191, b - 240)
  else if b =? 244 then Some (3%nat, 128, 143, 4)
  else None.

(** One step of the UTF-8 decoder: a code point, or [None] for an
    ill-formed maximal subpart, which is consumed without the byte that
    ends it (the replacement policy of CPython). *)
Definition utf8_step (b : Z) (t : bytes) : option Z * bytes :=
  if b <? 128 then (Some b, t)
  else
    match lead_info b with
    | None => (None, t)
    | Some (n, lo, hi, v0) =>
        match t with
        | c1 :: t1 =>
            if (lo <=? c1) && (c1 <=? hi) then
              let v1 := v0 * 64 + (c1 - 128) in
              if Nat.eqb n 1 then (Some v1, t1)
              else
                match t1 with
                | c2 :: t2 =>
                    if is_cont c2 then
                      let v2 := v1 * 64 + (c2 - 128) in
                      if Nat.eqb n 2 then (Some v2, t2)
                      else
                        match t2 with
                        | c3 :: t3 =>
                            if is_cont c3 then (Some (v2 * 64 + (c3 - 128)), t3)
                            else (None, t2)
                        | [] => (None, [])
                        end
                    else (None, t1)
                | [] => (None, [])
                end
            else (None, t)
        | [] => (None, [])
        end
    end.

(** Every step consumes at least one byte, so [length bs] steps decode
    all of [bs]. *)
Fixpoint utf8_decode_fuel (fuel : nat) (mode : errors_mode) (bs : bytes)
  : option codepoints :=
  match fuel, bs with
  | O, _ => Some []
  | _, [] => Some []
  | S f, b :: t =>
      let '(r, rest) := utf8_step b t in
      match r, mode with
      | Some cp, _ =>
          match utf8_decode_fuel f mode rest with
          | Some l => Some (cp :: l) | None => None end
      | None, Strict => None
      | None, Replace =>
          match utf8_decode_fuel f mode rest with
          | Some l => Some (65533 :: l) | None => None end
      end
  end.

(** The code points of Windows-1252 for the bytes 0x80-0x9F; [None] for
    the five undefined ones. *)
Definition cp1252_high (b : Z) : option Z :=
  nth (Z.to_nat (b - 128))
    [Some 8364; None; Some 8218; Some 402; Some 8222; Some 8230; Some 8224; Some 8225;
     Some 710; Some 8240; Some 352; Some 8249; Some 338; None; Some 381; None;
     None; Some 8216; Some 8217; Some 8220; Some 8221; Some 8226; Some 8211; Some 8212;
     Some 732; Some 8482; Some 353; Some 8250; Some 339; None; Some 382; Some 376]
    None.

Fixpoint map_bytes (f : Z -> option Z) (mode : errors_mode) (bs : bytes)
  : option codepoints :=
  match bs with
  | [] => Some []
  | b :: t =>
      match f b, mode, map_bytes f mode t with
      | _, _, None => None
      | Some cp, _, Some l => Some (cp :: l)
      | None, Strict, Some _ => None
      | None, Replace, Some l => Some (65533 :: l)
      end
  end.

(** [bytes.decode(codec, errors)]; [None] is a [UnicodeDecodeError]. *)
Definition decode (c : codec) (mode : errors_mode) (bs : bytes) : option codepoints :=
  match c with
  | Utf8 => utf8_decode_fuel (List.length bs) mode bs
  | Latin1 | Iso8859_1 => Some bs
  | Windows1252 =>
      map_bytes (fun b => if (128 <=? b) && (b <=? 159) then cp1252_high b else Some b)
        mode bs
  end.

(** The universal-newline translation of text-mode reads. *)
Fixpoint universal_newlines (s : codepoints) : codepoints :=
  match s with
  | [] => []
  | 13 :: 10 :: t => 10 :: universal_newlines t
  | 13 :: t => 10 :: universal_newlines t
  | c :: t => c :: universal_newlines t
  end.

(** [open(filepath, 'r', encoding=..., errors=...).read()]. *)
Definition open_read (c : codec) (mode : errors_mode) (bs : bytes) : option codepoints :=
  option_map universal_newlines (decode c mode bs).

(** The [for ... else] loop of lines 192-206. *)
Fixpoint try_encodings (encs : list codec) (bs : bytes) : option codepoints :=
  match encs with
  | [] => None
  | e :: rest =>
      match open_read e Strict bs with
      | Some t => Some t
      | None => try_encodings rest bs
      end
  end.

Definition decode_failure_msg : string := "Failed to decode text file with any encoding".

(** Lines 185-206: the text of a TXT file, or the error message raised. *)
Definition read_txt (bs : bytes) : codepoints + string :=
  match open_read Utf8 Replace bs with
  | Some t => inl t
  | None =>
      match try_encodings [Latin1; Iso8859_1; Windows1252] bs with
      | Some t => inl t
      | None => inr decode_failure_msg
      end
  end.


(** *** The dispatch of [process_document] *)

Inductive py_exn := ValueError | MemoryError | TimeoutError | ConnectionError.

Local Open Scope string_scope.

(** The outer handler of lines 217-239: the exception re-raised for an
    error whose text is [e]. *)
Definition reraise (e : string) : py_exn * string :=
  let has k := contains k e in
  let lo := lower e in
  if has "PDF" || has "pdf" then
    (ValueError, "PDF processing error: " ++ e ++ ". Your PDF file may be corrupted, password-protected, or in an unsupported format.")
  else if has "Word" || has "docx" || has "DOCX" then
    (ValueError, "Word document error: " ++ e ++ ". Your document may be corrupted or in an unsupported format.")
  else if has "PowerPoint" || has "pptx" || has "PPTX" then
    (ValueError, "PowerPoint presentation error: " ++ e ++ ". Your presentation may be corrupted or in an unsupported format.")
  else if has "Image" || has "image" || has "img" || has "IMG" then
    (ValueError, "Image processing error: " ++ e ++ ". Some images in your document could not be processed.")
  else if contains "memory" lo || has "Memory" then
    (MemoryError, "Not enough memory to process this document: " ++ e ++ ". Try with a smaller file.")
  else if contains "timeout" lo || contains "time" lo then
    (TimeoutError, "Processing timed out: " ++ e ++ ". The document may be too large or complex.")
  else if contains "connection" lo || contains "reset" lo || contains "broken" lo then
    (ConnectionError, "Connection issue: " ++ e ++ ". The processing was interrupted due to a network or server problem.")
  else
    (ValueError, "Document processing error: " ++ e ++ ". Please try with a different file format or a smaller file.").

(** What the PDF libraries obtain from a file: the text of its pages
    (empty when [PyPDF2] fails) and the images the embedded-image and
    page-rendering passes produce. *)
Record pdf_file := mk_pdf { pdf_text : string; pdf_images : list image }.

(** An uploaded file: its extension, its size in bytes, its bytes, and
    its reading by the PDF libraries. *)
Record upload := mk_upload {
  up_ext : string; up_size : Z; up_bytes : bytes; up_pdf : pdf_file }.

(** [process_pdf] (lines 249-406).  Every step of the extraction catches
    its exceptions, so the function always returns this dict. *)
Definition process_pdf (f : pdf_file) (skip_images : bool)
  : string * list image * structured :=
  let text_content := pdf_text f in
  if skip_images then (text_content, [], extract_structured_content text_content "pdf")
  else (text_content, pdf_images f, extract_structured_content text_content "pdf").

Record pdf_result := mk_pdf_result {
  pr_text : string;
  pr_images : list image;
  pr_structured : structured;
  pr_skip_ai : bool;   (* [result.get('skip_ai_processing', False)] *)
  pr_status : string;
  pr_error : option string }.

Definition mb : Z := 1024 * 1024.

(** The PDF branch of lines 83-98, with the [skip_images] arguments that
    [process_pdf] receives.  [process_pdf] never fails, so the recovery
    branch of lines 99-117 is not reached. *)
Definition process_document_pdf (file_size : Z) (f : pdf_file)
  : pdf_result * list bool :=
  let is_large_file := (15 * mb <? file_size)%Z in
  let is_very_large_file := (25 * mb <? file_size)%Z in
  let skip_image_extraction := if is_very_large_file then true else false in
  let '(text, images, sc) := process_pdf f skip_image_extraction in
  (mk_pdf_result text images sc is_large_file "success" None, [skip_image_extraction]).

(** The outcome of [process_document] on a file.  The structured content
    of a TXT file is not kept: the model of [extract_structured_content]
    works on ASCII strings, not on decoded code points. *)
Inductive pd_outcome :=
| PdfDone (r : pdf_result) (skip_images_args : list bool)
| TxtDone (text : codepoints)
| OfficeBranch (* DOC, DOCX and PPTX: branches not modelled here *)
| UnsupportedExt (error : string)
| Raised (e : py_exn) (message : string).

Definition process_document (u : upload) : pd_outcome :=
  if String.eqb (up_ext u) "pdf" then
    let '(r, args) := process_document_pdf (up_size u) (up_pdf u) in PdfDone r args
  else if String.eqb (up_ext u) "txt" then
    match read_txt (up_bytes u) with
    | inl t => TxtDone t
    | inr msg => let '(e, m) := reraise msg in Raised e m
    end
  else if existsb (String.eqb (up_ext u)) ["doc"; "docx"; "pptx"] then OfficeBranch
  else UnsupportedExt ("Unsupported file extension: " ++ up_ext u).

End DocProc.

(* ------------------------------------------------------------------ *)
(** ** [split_text] (generator.py, lines 769-791; the same function in
    document_processor.py, lines 997-1011) *)

Module TextSplit.
Import PyStr Generator.
Open Scope string_scope.

(** The separator ["\n\n"]. *)
Definition nn : string := nl ++ nl.

(** [s.split("\n\n")]: the separator is searched from the left, and each
    occurrence found is consumed whole; [cur] is the current field,
    reversed. *)
Fixpoint split_nn_aux (s cur : string) : list string :=
  match s with
  | EmptyString => [reverse cur]
  | String c t =>
      match t with
      | String c' t' =>
          if Ascii.eqb c "010" && Ascii.eqb c' "010"
          then reverse cur :: split_nn_aux t' EmptyString
          else split_nn_aux t (String c cur)
      | EmptyString => split_nn_aux t (String c cur)
      end
  end.

Definition split_nn (s : string) : list string := split_nn_aux s EmptyString.

(** One iteration of the loop over the paragraphs. *)
Definition split_text_step (max_tokens : Z) (st : list string * string) (p : string)
  : list string * string :=
  let '(chunks, current_chunk) := st in
  if (py_len current_chunk + py_len p <? max_tokens)%Z
  then (chunks, current_chunk ++ p ++ nn)
  else ((chunks ++ [current_chunk])%list, p ++ nn).

Definition split_text (text : string) (max_tokens : Z) : list string :=
  let '(chunks, current_chunk) :=
    fold_left (split_text_step max_tokens) (split_nn text) ([], "") in
  if String.eqb current_chunk "" then chunks else (chunks ++ [current_chunk])%list.

End TextSplit.

(* ------------------------------------------------------------------ *)
(** ** File extensions: [allowed_file] (utils/file_utils.py, lines 10-21)
    and the extension [process_document] dispatches on
    (document_processor.py, line 50) *)

Module FileExt.
Import PyStr.
Open Scope string_scope.

(** [s.rsplit(sep, 1)] as a pair: the text before the last [sep] and the
    text after it; [None] when [s] holds no [sep]. *)
Fixpoint rsplit1 (sep : ascii) (s : string) : option (string * string) :=
  match s with
  | EmptyString => None
  | String c t =>
      match rsplit1 sep t with
      | Some (a, b) => Some (String c a, b)
      | None => if Ascii.eqb c sep then Some (EmptyString, t) else None
      end
  end.

(** [filename.rsplit('.', 1)[1]]; the [and] of [allowed_file] evaluates it
    only when [filename] holds a dot, where the list has two items. *)
Definition rsplit_dot_1 (filename : string) : string :=
  match rsplit1 "." filename with Some (_, b) => b | None => EmptyString end.

Definition allowed_file (filename : string) (allowed_extensions : list string) : bool :=
  contains "." filename
  && existsb (String.eqb (lower (rsplit_dot_1 filename))) allowed_extensions.

(** [filename.split('.')[-1].lower() if '.' in filename else '']. *)
Definition file_extension (filename : string) : string :=
  if contains "." filename then lower (last (split_char "." filename) EmptyString)
  else EmptyString.

(** [ALLOWED_EXTENSIONS] of config.py and app.py. *)
Definition allowed_extensions : list string := ["pdf"; "doc"; "docx"; "pptx"; "txt"].

End FileExt.

(* ------------------------------------------------------------------ *)
(** ** Statements of the specification

    Definitions that follow the words of the specification, to be
    compared with the definitions above that follow the source. *)

Import PyStr Generator Structure DocProc TextSplit FileExt.
Open Scope string_scope.

(** The placeholder case study: fixed title, section texts and key
    points, no image. *)
Definition placeholder_case_study : dict :=
  [("title", JStr "Document Analysis Report");
   ("challenge", JStr "Analysis of the provided document content.");
   ("approach", JStr "Document processing and content extraction.");
   ("solution", JStr "Automated extraction of key information from the document.");
   ("outcomes", JStr "Generated report based on document analysis.");
   ("summary", JStr "This report was automatically generated from the document content.");
   ("key_points", JArr [JStr "Document processed successfully";
                        JStr "Content extracted and analyzed";
                        JStr "Report generated from content"]);
   ("images", JArr [])].

(** A result whose six text fields are all strings. *)
(** The document the fallback generator receives for an input: a
    missing, non-dict or empty input is replaced by an empty dict (lines
    48-51). *)
Definition input_doc (input : doc_input) : doc_data :=
  match input with DDict d => d | _ => empty_doc end.

Definition case_study_ok (r : option dict) : bool :=
  match r with
  | Some cs =>
      forallb (fun k => match dict_get cs k with Some (JStr _) => true | _ => false end)
        six_fields
  | None => false
  end.

(** Sections as the runs of lines between heading lines: the lines
    before the first heading (title "Introduction"), then one run per
    heading, titled by the stripped heading line; the body of a run is
    its lines, each followed by a newline. *)
Fixpoint heading_runs (lines : list string) : list string * list (string * list string) :=
  match lines with
  | [] => ([], [])
  | l :: ls =>
      let '(pre, rs) := heading_runs ls in
      if is_heading l then ([], (strip l, pre) :: rs) else (l :: pre, rs)
  end.

Definition body_of (ls : list string) : string :=
  String.concat "" (map (fun l => l ++ nl) ls).

Definition run_section (r : string * list string) : section :=
  mk_section (fst r) (body_of (snd r)).

(** The runs whose body is not blank; no section for a text that is empty
    or has fewer than 10 characters once stripped. *)
Definition sections_by_headings (text : string) : list section :=
  if String.eqb text "" || (String.length (strip text) <? 10)%nat then []
  else
    let '(pre, rs) := heading_runs (split_lines text) in
    filter (fun s => negb (is_blank (sec_content s)))
      (map run_section (("Introduction", pre) :: rs)).

(** First sentences of the sections longer than 200 characters, when
    they are longer than 10 characters. *)
Definition long_candidates (sections : list section) : list string :=
  filter (fun s0 => (10 <? String.length s0)%nat)
    (map (fun sec => first_sentence (sec_content sec))
       (filter (fun sec => (200 <? String.length (sec_content sec))%nat) sections)).

(** Key points: the short sections (stripped, newlines turned into
    spaces); when there are fewer than 3 of them, first sentences of long
    sections until there are 5; at most 7 in all. *)
Definition key_points_spec (sections : list section) : list string :=
  let sp := short_points sections in
  firstn 7 (if (List.length sp <? 3)%nat
            then (sp ++ firstn (5 - List.length sp) (long_candidates sections))%list
            else sp).

(** The image score as the specification lists it: no "cover" bonus, and
    the keyword lists diagram/chart/figure/workflow and
    icon/bullet/background. *)
Definition claimed_page_bonus (caption : string) : Z :=
  if contains "slide 1" caption || contains "page 1" caption then 100
  else if contains "slide 2" caption || contains "page 2" caption then 80
  else if existsb (fun n => contains ("slide " ++ n) caption) ["3"; "4"; "5"]
          || existsb (fun n => contains ("page " ++ n) caption) ["3"; "4"; "5"]
  then 60
  else 0.

Definition claimed_keyword_bonus (caption : string) : Z :=
  ((if existsb (fun k => contains k caption) ["diagram"; "chart"; "figure"; "workflow"]
    then 50 else 0)
   - (if existsb (fun k => contains k caption) ["icon"; "bullet"; "background"]
      then 50 else 0))%Z.

Definition claimed_score2 (cs_text : string) (i : nat) (img : image) : Z :=
  let cap := lower (img_caption img) in
  (Z.max 0 (100 - Z.of_nat i)
   + 2 * (claimed_page_bonus cap + relevance_bonus cs_text cap + claimed_keyword_bonus cap))%Z.

Fixpoint claimed_score_all (cs_text : string) (i : nat) (imgs : list image)
  : list (Z * image) :=
  match imgs with
  | [] => []
  | img :: t => (claimed_score2 cs_text i img, img) :: claimed_score_all cs_text (S i) t
  end.

Definition claimed_select (images : list image) (cs_text : string) (max_images : nat)
  : list image :=
  if (List.length images <=? max_images)%nat then images
  else map snd (firstn max_images (sort_desc (claimed_score_all cs_text 0 images))).

(** A list sorted by non-increasing score. *)
Definition desc_sorted (l : list (Z * image)) : Prop :=
  Sorted (fun x y => (fst y <= fst x)%Z) l.

(* ------------------------------------------------------------------ *)
(** ** Sample inputs *)

Definition sample_doc : doc_data :=
  mk_doc (Some "Quarterly results improved.") None None None None None.

Definition skipped_doc : doc_data :=
  mk_doc (Some "Quarterly results improved.") None None None None (Some true).

Definition rate_limited_client : backend := fun _ _ _ => CallRaises ApiRateLimit.

Definition null_title_client : backend :=
  fun _ _ _ => CallReturns (Some (JObj [("title", JNull)])).

(** A text of 20,001 characters, above the large-input threshold. *)
Definition long_text : string := repeat_char (Z.to_nat 20001) "a"%char.

Definition long_section : section := mk_section "T" (repeat_char 200 "b"%char).

Definition large_sectioned_doc : doc_data :=
  mk_doc (Some long_text) None (Some (mk_structured None (repeat long_section 6) []))
    None None None.

Definition large_plain_doc : doc_data :=
  mk_doc (Some long_text) None None None None None.

Definition photo (id : string) : image := mk_image id "photo".

(** Three generic photos, then a process map. *)
Definition process_map_images : list image :=
  [photo "i0"; photo "i1"; photo "i2"; mk_image "i3" "process map"].

Definition architecture_diagram : image := mk_image "d" "Architecture diagram".

Definition diagram_images : list image :=
  [photo "p0"; photo "p1"; photo "p2"; photo "p3"; architecture_diagram].

(** The bytes of "cafe" with an accented e in Latin-1: not valid UTF-8. *)
Definition cafe_latin1 : bytes := (99 :: 97 :: 102 :: 233 :: nil)%Z.

Definition cafe_txt : upload := mk_upload "txt" 4%Z cafe_latin1 (mk_pdf "" []).

(** A 20 MB PDF with one image: above the large-file threshold, below the
    very-large one. *)
Definition mid_size_pdf : upload :=
  mk_upload "pdf" (20 * mb)%Z [] (mk_pdf "Annual report" [photo "img0"]).

(** A 2 MB PDF with one image. *)
Definition small_pdf : upload :=
  mk_upload "pdf" (2 * mb)%Z [] (mk_pdf "Quarterly review" [photo "img0"]).

(** The ASCII bytes of "hi", a line feed and "there". *)
Definition hello_txt : upload :=
  mk_upload "txt" 8%Z (104 :: 105 :: 10 :: 116 :: 104 :: 101 :: 114 :: 101 :: nil)%Z
    (mk_pdf "" []).

(* ------------------------------------------------------------------ *)
(** ** The case-study generator *)

Lemma dd_is_empty_spec (d : doc_data) : dd_is_empty d = true -> d = empty_doc.
Proof.
  destruct d as [[] [] [] [] [] []]; simpl; intros H; first [discriminate H | reflexivity].
Qed.

Lemma nonempty_dict_set (kvs : dict) (k : string) (v : json) :
  nonempty (dict_set kvs k v) = true.
Proof. destruct kvs as [|[k' v'] t]; simpl; [|destruct (String.eqb k k')]; reflexivity. Qed.

Lemma select_key_images_on_strings (imgs : list image) (a b c e : string) :
  select_key_images imgs
    (JObj [("challenge", JStr a); ("approach", JStr b);
           ("solution", JStr c); ("outcomes", JStr e)]) 3 <> None.
Proof.
  unfold select_key_images.
  destruct imgs as [|i0 rest]; [discriminate|].
  destruct (List.length (i0 :: rest) <=? 3)%nat; [discriminate|].
  cbn. discriminate.
Qed.

(** The fallback generator never raises and always fills the six text
    fields with strings. *)
Lemma fallback_case_study_ok (d : doc_data) (audience : string) :
  case_study_ok (_generate_fallback_case_study d audience) = true.
Proof.
  unfold _generate_fallback_case_study. cbv zeta.
  match goal with
  | |- context [match select_key_images ?i ?c 3 with _ => _ end] =>
      destruct (select_key_images i c 3) eqn:E
  end.
  - reflexivity.
  - exfalso. revert E. apply select_key_images_on_strings.
Qed.

(** C10: with [None], a non-dict or an empty dict, the result is the
    placeholder case study (default title, placeholder texts, the three
    default key points, no image), and the backend is not called. *)
Theorem generate_case_study_invalid_input (openai : option backend) (audience : string) :
  generate_case_study openai DNone audience = (Some placeholder_case_study, []) /\
  generate_case_study openai DNonDict audience = (Some placeholder_case_study, []) /\
  generate_case_study openai (DDict empty_doc) audience = (Some placeholder_case_study, []).
Proof. repeat split; reflexivity. Qed.

(** C2: a document flagged [skip_ai_processing], with more than 200,000
    characters of text or with a recorded size above 100 MB goes to the
    fallback generator directly, with no backend call. *)
Theorem generate_case_study_direct_fallback (openai : option backend) (d : doc_data)
  (audience : string) :
  get_skip_ai d = true \/ (200000 < py_len (get_text d))%Z
  \/ (100 * 1024 * 1024 < get_file_size d)%Z ->
  generate_case_study openai (DDict d) audience
  = (_generate_fallback_case_study d audience, []).
Proof.
  intros H. unfold generate_case_study.
  destruct (dd_is_empty d) eqn:He.
  { apply dd_is_empty_spec in He. subst d. cbn in H. lia. }
  destruct (get_skip_ai d) eqn:Hs; [reflexivity|].
  destruct (100 * 1024 * 1024 <? get_file_size d)%Z eqn:Hf; [reflexivity|].
  destruct (String.eqb (get_text d) "") eqn:Ht; [reflexivity|].
  destruct (200000 <? py_len (get_text d))%Z eqn:Hl; [reflexivity|].
  apply Z.ltb_ge in Hf. apply Z.ltb_ge in Hl.
  exfalso. destruct H as [H | [H | H]]; [discriminate | lia | lia].
Qed.

Lemma generate_case_study_direct_fallback_witness :
  get_skip_ai skipped_doc = true /\
  generate_case_study (Some rate_limited_client) (DDict skipped_doc) "general"
  = (_generate_fallback_case_study skipped_doc "general", []).
Proof.
  split; [reflexivity|].
  apply generate_case_study_direct_fallback. left. reflexivity.
Defined.

(** C4: when the backend raises a rate-limit error, there is one call and
    no retry, and the result is the fallback generator applied to the
    original document data. *)
Theorem generate_case_study_rate_limit (client : backend) (d : doc_data)
  (audience : string) :
  get_skip_ai d = false ->
  (get_file_size d <= 100 * 1024 * 1024)%Z ->
  get_text d <> "" ->
  (py_len (get_text d) <= 200000)%Z ->
  client (prepared_text d) audience (is_large_input d) = CallRaises ApiRateLimit ->
  generate_case_study (Some client) (DDict d) audience
  = (_generate_fallback_case_study d audience, [prepared_text d]).
Proof.
  intros Hs Hf Ht Hl Hc. unfold generate_case_study.
  destruct (dd_is_empty d) eqn:He.
  { apply dd_is_empty_spec in He. subst d. cbn in Ht. congruence. }
  rewrite Hs.
  replace (100 * 1024 * 1024 <? get_file_size d)%Z with false
    by (symmetry; apply Z.ltb_ge; lia).
  replace (String.eqb (get_text d) "") with false
    by (symmetry; apply String.eqb_neq; exact Ht).
  replace (200000 <? py_len (get_text d))%Z with false
    by (symmetry; apply Z.ltb_ge; lia).
  rewrite Hc. unfold openai_generation, _generate_with_openai. rewrite Hc.
  reflexivity.
Qed.

Lemma generate_case_study_rate_limit_witness :
  get_skip_ai sample_doc = false /\
  generate_case_study (Some rate_limited_client) (DDict sample_doc) "general"
  = (_generate_fallback_case_study sample_doc "general", [prepared_text sample_doc]).
Proof.
  split; [reflexivity|].
  apply generate_case_study_rate_limit.
  - reflexivity.
  - vm_compute. discriminate.
  - vm_compute. discriminate.
  - vm_compute. discriminate.
  - reflexivity.
Defined.

(** C1, as stated, fails: a backend answer [{"title": null}] is returned
    as the case study, with a null title and no other text field. *)
Lemma generate_case_study_null_title :
  generate_case_study (Some null_title_client) (DDict sample_doc) "general"
  = (Some [("title", JNull); ("images", JArr [])], [prepared_text sample_doc]) /\
  case_study_ok (fst (generate_case_study (Some null_title_client) (DDict sample_doc)
                        "general")) = false.
Proof. vm_compute. split; reflexivity. Qed.

(** C1 (amended): [generate_case_study] never raises.  Its result is
    either the fallback generator's result for the input document, whose
    six text fields are strings, or the non-empty JSON object the backend
    answered, for which the image selection succeeded, with its ['images']
    key set and its fields unchecked.  Without a client the result is the
    fallback's; with one, every failure (an exception of any class, an
    unparsable answer, a falsy or non-object answer, a selection error, a
    thread still running at the timeout) gives the fallback's result for
    the input document. *)
Theorem generate_case_study_outcomes (openai : option backend) (input : doc_input)
  (audience : string) :
  let r := fst (generate_case_study openai input audience) in
  ((case_study_ok r = true /\ r = _generate_fallback_case_study (input_doc input) audience)
   \/ (exists client d kvs selected,
          openai = Some client /\ input = DDict d /\
          client (prepared_text d) audience (is_large_input d)
          = CallReturns (Some (JObj kvs)) /\
          kvs <> [] /\
          select_key_images (get_images d) (JObj kvs) 3 = Some selected /\
          r = Some (dict_set kvs "images" (JArr (map image_json selected))))) /\
  (openai = None -> r = _generate_fallback_case_study (input_doc input) audience) /\
  (forall client d, openai = Some client -> input = DDict d ->
     (forall kvs, client (prepared_text d) audience (is_large_input d)
                  = CallReturns (Some (JObj kvs)) ->
                  kvs = [] \/ select_key_images (get_images d) (JObj kvs) 3 = None) ->
     r = _generate_fallback_case_study d audience).
Proof.
  cbv zeta.
  assert (Main :
    (case_study_ok (fst (generate_case_study openai input audience)) = true /\
     fst (generate_case_study openai input audience)
     = _generate_fallback_case_study (input_doc input) audience)
    \/ (exists client d kvs selected,
          openai = Some client /\ input = DDict d /\
          client (prepared_text d) audience (is_large_input d)
          = CallReturns (Some (JObj kvs)) /\
          kvs <> [] /\
          select_key_images (get_images d) (JObj kvs) 3 = Some selected /\
          fst (generate_case_study openai input audience)
          = Some (dict_set kvs "images" (JArr (map image_json selected))))).
  { assert (FB : forall d', input_doc input = d' ->
              case_study_ok (_generate_fallback_case_study d' audience) = true
              /\ _generate_fallback_case_study d' audience
                 = _generate_fallback_case_study (input_doc input) audience)
      by (intros d' <-; split; [apply fallback_case_study_ok | reflexivity]).
    unfold generate_case_study.
    destruct input as [| |d]; cbn [fst];
      [left; apply FB; reflexivity | left; apply FB; reflexivity |].
    destruct (dd_is_empty d) eqn:He.
    { left. apply dd_is_empty_spec in He. subst d. apply FB. reflexivity. }
    destruct (get_skip_ai d); [left; apply FB; reflexivity|].
    destruct (100 * 1024 * 1024 <? get_file_size d)%Z; [left; apply FB; reflexivity|].
    destruct (String.eqb (get_text d) ""); [left; apply FB; reflexivity|].
    destruct (200000 <? py_len (get_text d))%Z; [left; apply FB; reflexivity|].
    destruct openai as [client|]; [|left; apply FB; reflexivity].
    destruct (client (prepared_text d) audience (is_large_input d)) as [e|parsed|] eqn:Hc;
      unfold openai_generation, _generate_with_openai; rewrite ?Hc;
      [left; apply FB; reflexivity | | left; apply FB; reflexivity].
    destruct parsed as [v|]; [|left; apply FB; reflexivity].
    destruct (truthy v) eqn:Ht; [|left; apply FB; reflexivity].
    destruct (select_key_images (get_images d) v 3) as [sel|] eqn:Es;
      [|left; apply FB; reflexivity].
    destruct v as [| | | | |kvs]; try (left; apply FB; reflexivity).
    rewrite nonempty_dict_set. cbn [fst].
    right. exists client, d, kvs, sel. repeat split; try reflexivity; try assumption.
    intros ->. discriminate Ht. }
  split; [exact Main|]. split.
  - intros ->. destruct Main as [[_ H]|(client & d & kvs & sel & H & _)]; [exact H | discriminate H].
  - intros client d -> -> Hf.
    destruct Main as [[_ H]|(client' & d' & kvs & sel & Hcl & Hd & Hc & Hk & Hs & _)];
      [exact H|].
    injection Hcl as <-. injection Hd as <-.
    destruct (Hf kvs Hc) as [H|H]; congruence.
Qed.

(** Whatever the backend does, a document that passes the size checks
    leads to exactly one call, with [prepared_text d]. *)
Lemma generate_case_study_calls (client : backend) (d : doc_data) (audience : string) :
  get_skip_ai d = false ->
  (get_file_size d <= 100 * 1024 * 1024)%Z ->
  get_text d <> "" ->
  (py_len (get_text d) <= 200000)%Z ->
  snd (generate_case_study (Some client) (DDict d) audience) = [prepared_text d].
Proof.
  intros Hs Hf Ht Hl. unfold generate_case_study.
  destruct (dd_is_empty d) eqn:He.
  { apply dd_is_empty_spec in He. subst d. cbn in Ht. congruence. }
  rewrite Hs.
  replace (100 * 1024 * 1024 <? get_file_size d)%Z with false
    by (symmetry; apply Z.ltb_ge; lia).
  replace (String.eqb (get_text d) "") with false
    by (symmetry; apply String.eqb_neq; exact Ht).
  replace (200000 <? py_len (get_text d))%Z with false
    by (symmetry; apply Z.ltb_ge; lia).
  destruct (client (prepared_text d) audience (is_large_input d)); try reflexivity;
    destruct (openai_generation _ _ _ _ _) as [res|]; try reflexivity;
    destruct (nonempty res); reflexivity.
Qed.

Lemma prefix_app (m r : string) : prefix m (m ++ r) = true.
Proof.
  induction m as [|c m IH]; simpl; [destruct r; reflexivity|].
  destruct (ascii_dec c c); [exact IH | contradiction].
Qed.

Lemma contains_app_l (m a b : string) :
  contains m b = true -> contains m (a ++ b) = true.
Proof.
  intros H. induction a as [|c a IH]; simpl; [exact H|].
  rewrite IH. apply orb_true_r.
Qed.

Lemma contains_here (m r : string) : contains m (m ++ r) = true.
Proof. destruct m as [|c m]; simpl.
  - destruct r; reflexivity.
  - pose proof (prefix_app (String c m) r) as H. simpl in H. rewrite H. reflexivity.
Qed.

(** C3, as stated, fails: on the structured path (more than 5 sections)
    the text sent is the compact section text, with no truncation
    marker. *)
Lemma generate_case_study_compact_without_marker :
  is_large_input large_sectioned_doc = true /\
  exists sent,
    snd (generate_case_study (Some rate_limited_client) (DDict large_sectioned_doc)
           "general") = [sent] /\
    contains "truncated" sent = false.
Proof.
  split; [vm_compute; reflexivity|].
  exists (prepared_text large_sectioned_doc). vm_compute. split; reflexivity.
Qed.

(** C3 (amended): a large input (more than 20,000 and at most 200,000
    characters) gives one backend call.  On the positional path (at most 5
    sections) the text sent carries the marker "[...content truncated...]"
    below 100,000 characters and "[...most content truncated...]" from
    there on; on the structured path it is the compact section text when
    that is longer than 1,000 characters, else the whole text. *)
Theorem generate_case_study_truncation (client : backend) (d : doc_data)
  (audience : string) :
  get_skip_ai d = false ->
  (get_file_size d <= 100 * 1024 * 1024)%Z ->
  (20000 < py_len (get_text d) <= 200000)%Z ->
  exists sent,
    snd (generate_case_study (Some client) (DDict d) audience) = [sent] /\
    ((List.length (get_sections d) <= 5)%nat ->
     contains (if (py_len (get_text d) <? 100000)%Z then content_marker
               else most_content_marker) sent = true) /\
    ((5 < List.length (get_sections d))%nat ->
     sent = if (1000 <? py_len (compact_text (get_sections d)))%Z
            then compact_text (get_sections d) else get_text d).
Proof.
  intros Hs Hf Hl.
  assert (Ht : get_text d <> "").
  { intros E. rewrite E in Hl. cbn in Hl. lia. }
  exists (prepared_text d). split.
  { apply generate_case_study_calls; auto; lia. }
  assert (Hlarge : is_large_input d = true) by (apply Z.ltb_lt; lia).
  unfold prepared_text, truncate_large_input. rewrite Hlarge. split.
  - intros H5.
    replace (nonempty (get_sections d) && (5 <? List.length (get_sections d))%nat)
      with false
      by (symmetry; apply andb_false_intro2; apply Nat.ltb_ge; exact H5).
    unfold positional_truncation.
    destruct (py_len (get_text d) <? 100000)%Z;
      do 3 apply contains_app_l; apply contains_here.
  - intros H5.
    destruct (get_sections d) as [|s0 ss]; [simpl in H5; lia|].
    replace (nonempty (s0 :: ss) && (5 <? List.length (s0 :: ss))%nat) with true
      by (symmetry; apply Nat.ltb_lt; exact H5).
    reflexivity.
Qed.

Lemma generate_case_study_truncation_witness :
  get_skip_ai large_plain_doc = false /\
  (20000 < py_len (get_text large_plain_doc) <= 200000)%Z /\
  exists sent,
    snd (generate_case_study (Some rate_limited_client) (DDict large_plain_doc) "general")
    = [sent] /\
    ((List.length (get_sections large_plain_doc) <= 5)%nat ->
     contains (if (py_len (get_text large_plain_doc) <? 100000)%Z then content_marker
               else most_content_marker) sent = true) /\
    ((5 < List.length (get_sections large_plain_doc))%nat ->
     sent = if (1000 <? py_len (compact_text (get_sections large_plain_doc)))%Z
            then compact_text (get_sections large_plain_doc)
            else get_text large_plain_doc).
Proof.
  split; [reflexivity|]. split; [vm_compute; split; [reflexivity | discriminate]|].
  apply generate_case_study_truncation.
  - reflexivity.
  - vm_compute. discriminate.
  - vm_compute. split; [reflexivity | discriminate].
Defined.

(* ------------------------------------------------------------------ *)
(** ** Image selection *)

Lemma ascii_lower_idem (c : ascii) : ascii_lower (ascii_lower c) = ascii_lower c.
Proof.
  destruct c as [b0 b1 b2 b3 b4 b5 b6 b7].
  destruct b0, b1, b2, b3, b4, b5, b6, b7; vm_compute; reflexivity.
Qed.

Lemma lower_idem (s : string) : lower (lower s) = lower s.
Proof.
  induction s as [|c s IH]; simpl; [reflexivity|].
  rewrite ascii_lower_idem, IH. reflexivity.
Qed.

Lemma insert_desc_perm (x : Z * image) (l : list (Z * image)) :
  Permutation (insert_desc x l) (x :: l).
Proof.
  induction l as [|y l IH]; simpl; [auto|].
  destruct (fst x <? fst y)%Z; [|auto].
  eapply perm_trans; [apply perm_skip, IH | apply perm_swap].
Qed.

Lemma sort_desc_perm (l : list (Z * image)) : Permutation (sort_desc l) l.
Proof.
  induction l as [|x l IH]; simpl; [auto|].
  eapply perm_trans; [apply insert_desc_perm | apply perm_skip, IH].
Qed.

Lemma insert_desc_hdrel (y x : Z * image) (l : list (Z * image)) :
  HdRel (fun a b => (fst b <= fst a)%Z) y l -> (fst x <= fst y)%Z ->
  HdRel (fun a b => (fst b <= fst a)%Z) y (insert_desc x l).
Proof.
  intros H Hx. destruct l as [|z l]; simpl; [constructor; exact Hx|].
  destruct (fst x <? fst z)%Z; constructor; [inversion H; assumption | exact Hx].
Qed.

Lemma insert_desc_sorted (x : Z * image) (l : list (Z * image)) :
  desc_sorted l -> desc_sorted (insert_desc x l).
Proof.
  unfold desc_sorted. induction l as [|y l IH]; simpl; intros H.
  - repeat constructor.
  - destruct (fst x <? fst y)%Z eqn:E.
    + apply Z.ltb_lt in E. inversion H; subst.
      constructor; [apply IH; assumption|].
      apply insert_desc_hdrel; [assumption | lia].
    + apply Z.ltb_ge in E. constructor; [exact H | constructor; lia].
Qed.

Lemma sort_desc_sorted (l : list (Z * image)) : desc_sorted (sort_desc l).
Proof.
  induction l as [|x l IH]; simpl; [constructor|].
  apply insert_desc_sorted, IH.
Qed.

(** Stability: the elements of one score keep their relative order. *)
Lemma insert_desc_filter (k : Z) (x : Z * image) (l : list (Z * image)) :
  filter (fun p => (fst p =? k)%Z) (insert_desc x l)
  = filter (fun p => (fst p =? k)%Z) (x :: l).
Proof.
  induction l as [|y l IH]; simpl; [reflexivity|].
  destruct (fst x <? fst y)%Z eqn:E; [|reflexivity].
  apply Z.ltb_lt in E. simpl. rewrite IH. simpl.
  destruct (fst x =? k)%Z eqn:Ex, (fst y =? k)%Z eqn:Ey; try reflexivity.
  apply Z.eqb_eq in Ex. apply Z.eqb_eq in Ey. lia.
Qed.

Lemma sort_desc_filter (k : Z) (l : list (Z * image)) :
  filter (fun p => (fst p =? k)%Z) (sort_desc l) = filter (fun p => (fst p =? k)%Z) l.
Proof.
  induction l as [|x l IH]; simpl; [reflexivity|].
  rewrite insert_desc_filter. simpl. rewrite IH. reflexivity.
Qed.

Lemma perm_filter_length {A} (f : A -> bool) (l l' : list A) :
  Permutation l l' -> List.length (filter f l) = List.length (filter f l').
Proof.
  induction 1; simpl.
  - reflexivity.
  - destruct (f x); simpl; lia.
  - destruct (f x), (f y); reflexivity.
  - congruence.
Qed.

Lemma desc_sorted_app (A B : list (Z * image)) (a b : Z * image) :
  desc_sorted (A ++ B) -> In a A -> In b B -> (fst b <= fst a)%Z.
Proof.
  unfold desc_sorted. intros H. apply Sorted_StronglySorted in H.
  2: { intros x y z Hxy Hyz. lia. }
  induction A as [|a0 A IH]; simpl; [contradiction|].
  inversion H as [|? ? Hs Hf]; subst. intros [E|Ha] Hb.
  - subst a0. rewrite Forall_forall in Hf. apply (Hf b), in_or_app. right; exact Hb.
  - exact (IH Hs Ha Hb).
Qed.

Lemma score_all_app (t : string) (k : nat) (a b : list image) :
  score_all t k (a ++ b) = (score_all t k a ++ score_all t (k + List.length a) b)%list.
Proof.
  revert k. induction a as [|x a IH]; intros k; simpl.
  - rewrite Nat.add_0_r. reflexivity.
  - rewrite IH. do 3 f_equal. lia.
Qed.

Lemma score_all_length (t : string) (k : nat) (l : list image) :
  List.length (score_all t k l) = List.length l.
Proof. revert k. induction l as [|x l IH]; intros k; simpl; [reflexivity | f_equal; apply IH]. Qed.

Lemma in_score_all (t : string) (k : nat) (l : list image) (p : Z * image) :
  In p (score_all t k l) -> In (snd p) l.
Proof.
  revert k. induction l as [|x l IH]; intros k; simpl; [contradiction|].
  intros [E|H]; [subst p; left; reflexivity | right; exact (IH _ H)].
Qed.

(** Images with no caption bonus score below 100 (doubled) after the
    first position. *)
Lemma generic_scores_low (t : string) (k : nat) (l : list image) :
  (1 <= k)%nat ->
  (forall img, In img l -> (caption_bonus t (lower (img_caption img)) <= 0)%Z) ->
  filter (fun p => (100 <=? fst p)%Z) (score_all t k l) = [].
Proof.
  revert k. induction l as [|x l IH]; intros k Hk Hg; simpl; [reflexivity|].
  assert (Hx := Hg x (or_introl eq_refl)).
  replace (100 <=? score2 t k x)%Z with false.
  - apply IH; [lia|]. intros img Hi. apply Hg. right; exact Hi.
  - symmetry. apply Z.leb_gt. unfold score2. lia.
Qed.

Lemma generic_scores_high (t : string) (l : list image) :
  (forall img, In img l -> (caption_bonus t (lower (img_caption img)) <= 0)%Z) ->
  (List.length (filter (fun p => (100 <=? fst p)%Z) (score_all t 0 l)) <= 1)%nat.
Proof.
  destruct l as [|x l]; intros Hg; simpl; [lia|].
  rewrite generic_scores_low; [| lia | intros img Hi; apply Hg; right; exact Hi].
  destruct (100 <=? score2 t 0 x)%Z; simpl; lia.
Qed.

Lemma page_bonus_nonneg (c : string) : (0 <= page_bonus c)%Z.
Proof. unfold page_bonus. repeat match goal with |- context [if ?b then _ else _] => destruct b end; lia. Qed.

Lemma relevance_bonus_nonneg (t c : string) : (0 <= relevance_bonus t c)%Z.
Proof. unfold relevance_bonus. destruct (_ && _); lia. Qed.

Lemma diagram_caption_bonus (t c : string) :
  contains "diagram" (lower c) = true ->
  existsb (fun k => contains k (lower c)) decorative_keywords = false ->
  (50 <= caption_bonus t (lower c))%Z.
Proof.
  intros Hd Hn. unfold caption_bonus, keyword_bonus. rewrite lower_idem, Hn.
  simpl existsb at 1. rewrite Hd. simpl orb.
  pose proof (page_bonus_nonneg (lower c)). pose proof (relevance_bonus_nonneg t (lower c)).
  lia.
Qed.

Lemma filter_all {A} (f : A -> bool) (l : list A) :
  (forall x, In x l -> f x = true) -> filter f l = l.
Proof.
  induction l as [|x l IH]; intros H; simpl; [reflexivity|].
  rewrite (H x (or_introl eq_refl)), IH; [reflexivity|].
  intros y Hy. apply H. right; exact Hy.
Qed.

Lemma select_key_images_small (images : list image) (cs : json) (m : nat) :
  (List.length images <= m)%nat -> select_key_images images cs m = Some images.
Proof.
  intros H. unfold select_key_images. destruct images as [|i0 rest]; [reflexivity|].
  rewrite (proj2 (Nat.leb_le _ _) H). reflexivity.
Qed.

Lemma select_key_images_large (images : list image) (cs : json) (m : nat) (t : string) :
  (m < List.length images)%nat -> case_study_text cs = Some t ->
  select_key_images images cs m
  = Some (map snd (firstn m (sort_desc (score_all t 0 images)))).
Proof.
  intros H Ht. unfold select_key_images.
  destruct images as [|i0 rest]; [simpl in H; lia|].
  rewrite (proj2 (Nat.leb_gt _ _) H), Ht. reflexivity.
Qed.

(** C7, as stated, fails: the score also rewards "process" (and "graph",
    "infographic", "results", "cover"), so out of three photos and a
    process map the code keeps the process map, where the score the
    specification lists keeps the three photos. *)
Lemma select_key_images_process_map :
  case_study_text JNull = Some "" /\
  select_key_images process_map_images JNull 3
  = Some [mk_image "i3" "process map"; photo "i0"; photo "i1"] /\
  claimed_select process_map_images "" 3 = [photo "i0"; photo "i1"; photo "i2"].
Proof. vm_compute. repeat split. Qed.

(** C7 (amended): (1) at most [m] images come back unchanged; (2) with
    more than [m] images and a case study whose text fields are strings
    (or absent), the result is the images of the first [m] entries of a
    list [L] of the scored images (doubled score [score2]: position score,
    page bonus including "cover", +10 per caption word longer than 4
    characters found in the case-study text, +50 for
    diagram/chart/graph/figure/process/workflow/infographic/results, -50
    for icon/bullet/background/decoration) that is a permutation of them,
    sorted by non-increasing score, and stable; (3) a non-string field of
    the case study makes it raise; (4) an image whose caption contains
    "diagram" and no decorative keyword, among images with no caption
    bonus, is among the 3 returned. *)
Theorem select_key_images_ranking :
  (forall images cs m, (List.length images <= m)%nat ->
     select_key_images images cs m = Some images) /\
  (forall images cs m t, (m < List.length images)%nat -> case_study_text cs = Some t ->
     exists L,
       select_key_images images cs m = Some (map snd (firstn m L)) /\
       Permutation L (score_all t 0 images) /\
       desc_sorted L /\
       (forall k, filter (fun p => (fst p =? k)%Z) L
                  = filter (fun p => (fst p =? k)%Z) (score_all t 0 images))) /\
  (forall images cs m, (m < List.length images)%nat -> case_study_text cs = None ->
     select_key_images images cs m = None) /\
  (forall pre dimg post cs t, case_study_text cs = Some t ->
     contains "diagram" (lower (img_caption dimg)) = true ->
     existsb (fun k => contains k (lower (img_caption dimg))) decorative_keywords = false ->
     (forall img, In img (pre ++ post) -> (caption_bonus t (lower (img_caption img)) <= 0)%Z) ->
     exists sel, select_key_images (pre ++ dimg :: post) cs 3 = Some sel /\ In dimg sel).
Proof.
  split; [exact select_key_images_small|].
  split.
  { intros images cs m t Hm Ht. exists (sort_desc (score_all t 0 images)).
    split; [exact (select_key_images_large images cs m t Hm Ht)|].
    split; [apply sort_desc_perm|].
    split; [apply sort_desc_sorted|].
    intros k. apply sort_desc_filter. }
  split.
  { intros images cs m Hm Ht. unfold select_key_images.
    destruct images as [|i0 rest]; [simpl in Hm; lia|].
    rewrite (proj2 (Nat.leb_gt _ _) Hm), Ht. reflexivity. }
  intros pre dimg post cs t Ht Hd Hn Hg.
  set (images := (pre ++ dimg :: post)%list).
  destruct (Nat.leb_spec (List.length images) 3) as [Hs|Hl].
  { exists images. split; [apply select_key_images_small; exact Hs|].
    apply in_or_app. right; left; reflexivity. }
  set (L := sort_desc (score_all t 0 images)).
  exists (map snd (firstn 3 L)).
  split; [exact (select_key_images_large images cs 3 t Hl Ht)|].
  set (d := (score2 t (List.length pre) dimg, dimg)).
  set (f := fun p : Z * image => (100 <=? fst p)%Z).
  assert (Hsplit : score_all t 0 images
                   = (score_all t 0 pre ++ d :: score_all t (S (List.length pre)) post)%list).
  { unfold images. rewrite score_all_app. reflexivity. }
  assert (HdL : In d L).
  { apply (Permutation_in _ (Permutation_sym (sort_desc_perm _))).
    rewrite Hsplit. apply in_or_app. right; left; reflexivity. }
  assert (Hds : (100 <= fst d)%Z).
  { simpl. unfold score2. pose proof (diagram_caption_bonus t (img_caption dimg) Hd Hn). lia. }
  rewrite <- (firstn_skipn 3 L) in HdL.
  apply in_app_or in HdL as [Hin|Hin].
  { apply (in_map snd) in Hin. exact Hin. }
  exfalso.
  assert (Hle : (List.length (filter f (score_all t 0 images)) <= 2)%nat).
  { rewrite Hsplit, filter_app, length_app. unfold f. simpl filter.
    rewrite (generic_scores_low t (S (List.length pre)) post);
      [| lia | intros img Hi; apply Hg, in_or_app; right; exact Hi].
    assert (Hp : (List.length (filter (fun p : Z * image => (100 <=? fst p)%Z)
                                  (score_all t 0 pre)) <= 1)%nat).
    { apply generic_scores_high. intros img Hi. apply Hg, in_or_app. left; exact Hi. }
    destruct (100 <=? score2 t (List.length pre) dimg)%Z; simpl; lia. }
  assert (Hge : (4 <= List.length (filter f L))%nat).
  { assert (Hsorted : desc_sorted (firstn 3 L ++ skipn 3 L)).
    { rewrite firstn_skipn. apply sort_desc_sorted. }
    rewrite <- (firstn_skipn 3 L), filter_app, length_app.
    rewrite (filter_all f (firstn 3 L)).
    2: { intros x Hx. unfold f. apply Z.leb_le.
         pose proof (desc_sorted_app _ _ x d Hsorted Hx Hin). lia. }
    assert (HL : List.length L = List.length images).
    { unfold L. rewrite (Permutation_length (sort_desc_perm _)). apply score_all_length. }
    rewrite length_firstn, HL.
    assert (Hf : In d (filter f (skipn 3 L))).
    { apply filter_In. split; [exact Hin|]. unfold f. apply Z.leb_le. exact Hds. }
    destruct (filter f (skipn 3 L)) as [|p l]; [contradiction|].
    change (List.length (p :: l)) with (S (List.length l)). lia. }
  pose proof (perm_filter_length f _ _ (sort_desc_perm (score_all t 0 images))).
  fold L in H. lia.
Qed.

Lemma select_key_images_ranking_witness :
  case_study_text JNull = Some "" /\
  exists sel, select_key_images diagram_images JNull 3 = Some sel /\
              In architecture_diagram sel.
Proof.
  split; [reflexivity|].
  apply (proj2 (proj2 (proj2 select_key_images_ranking))
           [photo "p0"; photo "p1"; photo "p2"; photo "p3"] architecture_diagram [] JNull "").
  - reflexivity.
  - vm_compute. reflexivity.
  - vm_compute. reflexivity.
  - intros img Hi. simpl in Hi.
    repeat destruct Hi as [Hi|Hi]; subst; try contradiction; vm_compute; discriminate.
Defined.

(* ------------------------------------------------------------------ *)
(** ** Sections of [extract_structured_content] *)

Lemma string_app_nil_r (s : string) : (s ++ "")%string = s.
Proof. induction s as [|c s IH]; simpl; [reflexivity | rewrite IH; reflexivity]. Qed.

Lemma string_app_assoc (a b c : string) : ((a ++ b) ++ c)%string = (a ++ (b ++ c))%string.
Proof. induction a as [|x a IH]; simpl; [reflexivity | rewrite IH; reflexivity]. Qed.

Lemma body_of_cons (l : string) (ls : list string) :
  body_of (l :: ls) = ((l ++ nl) ++ body_of ls)%string.
Proof.
  destruct ls as [|l' ls]; unfold body_of; simpl; [|reflexivity].
  rewrite string_app_nil_r. reflexivity.
Qed.

(** The loop of lines 523-539, from any state: the sections it adds are
    the runs between heading lines whose body is not blank, the first run
    continuing the current section. *)
Lemma section_loop_runs (lines : list string) (S : list section) (T C : string) :
  let st := fold_left section_step lines (mk_sec_state S (mk_section T C)) in
  (if is_blank (sec_content (ss_current st)) then ss_sections st
   else (ss_sections st ++ [ss_current st])%list)
  = (S ++ filter (fun s => negb (is_blank (sec_content s)))
            (mk_section T (C ++ body_of (fst (heading_runs lines)))
             :: map run_section (snd (heading_runs lines))))%list.
Proof.
  revert S T C. induction lines as [|l ls IH]; intros S T C; simpl.
  - rewrite string_app_nil_r. simpl.
    destruct (is_blank C); simpl; [rewrite app_nil_r|]; reflexivity.
  - destruct (heading_runs ls) as [pre rs] eqn:E. simpl in IH.
    replace (section_step (mk_sec_state S (mk_section T C)) l)
      with (if is_heading l
            then mk_sec_state (if is_blank C then S else (S ++ [mk_section T C])%list)
                   (mk_section (strip l) "")
            else mk_sec_state S (mk_section T (C ++ l ++ nl))) by reflexivity.
    destruct (is_heading l).
    + rewrite IH. simpl. rewrite string_app_nil_r.
      destruct (is_blank C); simpl; [reflexivity|].
      rewrite <- app_assoc. reflexivity.
    + simpl. rewrite IH, body_of_cons, string_app_assoc, string_app_assoc.
      reflexivity.
Qed.

(** C5, as stated, fails: a heading line followed at once by another
    heading line starts a section with an empty body, which is dropped,
    so the line "# A" appears in no section, neither as a title nor in a
    body. *)
Lemma extract_structured_content_drops_heading :
  let text := ("# A" ++ nl ++ "# B" ++ nl ++ "hello world")%string in
  In "# A" (split_lines text) /\ is_heading "# A" = true /\
  sc_sections (extract_structured_content text "txt")
  = [mk_section "# B" ("hello world" ++ nl)].
Proof. vm_compute. split; [left; reflexivity | split; reflexivity]. Qed.

Lemma first_match_existsb (ps : list (string -> bool)) (s : string) :
  first_match ps s = existsb (fun p => p s) ps.
Proof. induction ps as [|p ps IH]; simpl; [reflexivity | destruct (p s); [reflexivity | exact IH]]. Qed.

(** C5 (amended): a line is a heading when one of the five patterns
    matches it once stripped; the sections are the runs of lines between
    heading lines (the lines before the first heading titled
    "Introduction", each later run titled by its stripped heading line,
    the body of a run being its lines each followed by a newline), less
    the runs whose body is blank (which takes their heading line with
    them), and there is no section for a text that is empty or shorter
    than 10 characters once stripped. *)
Theorem extract_structured_content_sections :
  (forall line, is_heading line = existsb (fun p => p (strip line)) section_patterns) /\
  (forall text doc_type,
     sc_sections (extract_structured_content text doc_type) = sections_by_headings text).
Proof.
  split; [intros line; apply first_match_existsb|].
  intros text doc_type.
  unfold extract_structured_content, sections_by_headings.
  destruct (String.eqb text "" || (String.length (strip text) <? 10)%nat); [reflexivity|].
  simpl. unfold extract_sections.
  pose proof (section_loop_runs (split_lines text) [] "Introduction" "") as H.
  destruct (heading_runs (split_lines text)) as [pre rs]. exact H.
Qed.

(* ------------------------------------------------------------------ *)
(** ** Key points of [extract_structured_content] *)

Lemma long_candidates_cons (sec : section) (rest : list section) :
  long_candidates (sec :: rest)
  = if (200 <? String.length (sec_content sec))%nat then
      if (10 <? String.length (first_sentence (sec_content sec)))%nat
      then first_sentence (sec_content sec) :: long_candidates rest
      else long_candidates rest
    else long_candidates rest.
Proof.
  unfold long_candidates. simpl.
  destruct (200 <? String.length (sec_content sec))%nat; reflexivity.
Qed.

(** The loop over long sections, started with fewer than 5 key points,
    adds the first candidates until there are 5. *)
Lemma long_points_loop_spec (secs : list section) (kps : list string) :
  (List.length kps < 5)%nat ->
  long_points_loop secs kps
  = (kps ++ firstn (5 - List.length kps) (long_candidates secs))%list.
Proof.
  revert kps. induction secs as [|sec rest IH]; intros kps Hk.
  - simpl. unfold long_candidates. simpl. rewrite firstn_nil, app_nil_r. reflexivity.
  - rewrite long_candidates_cons. cbn [long_points_loop].
    destruct (200 <? String.length (sec_content sec))%nat; [|apply IH; exact Hk].
    destruct (10 <? String.length (first_sentence (sec_content sec)))%nat.
    + rewrite length_app. cbn [List.length].
      replace (5 - List.length kps)%nat with (S (4 - List.length kps)) by lia.
      cbn [firstn].
      destruct (5 <=? List.length kps + 1)%nat eqn:E.
      * apply Nat.leb_le in E.
        replace (4 - List.length kps)%nat with 0%nat by lia. reflexivity.
      * apply Nat.leb_gt in E. rewrite IH by (rewrite length_app; cbn [List.length]; lia).
        rewrite length_app, <- app_assoc. cbn [List.length app].
        replace (5 - (List.length kps + 1))%nat with (4 - List.length kps)%nat by lia.
        reflexivity.
    + replace (5 <=? List.length kps)%nat with false
        by (symmetry; apply Nat.leb_gt; exact Hk).
      apply IH; exact Hk.
Qed.

Lemma key_points_of_spec (secs : list section) :
  key_points_of secs = key_points_spec secs.
Proof.
  unfold key_points_of, key_points_spec.
  destruct (List.length (short_points secs) <? 3)%nat eqn:E; [|reflexivity].
  apply Nat.ltb_lt in E. rewrite long_points_loop_spec by lia. reflexivity.
Qed.

(** C6, as stated, fails: a short section's key point is its stripped
    body with newlines turned into spaces, not the body verbatim. *)
Lemma extract_structured_content_joined_point :
  let text := ("# Heading" ++ nl ++ "hello world" ++ nl ++ "again here")%string in
  sc_sections (extract_structured_content text "txt")
  = [mk_section "# Heading" ("hello world" ++ nl ++ "again here" ++ nl)] /\
  sc_key_points (extract_structured_content text "txt") = ["hello world again here"] /\
  strip ("hello world" ++ nl ++ "again here" ++ nl) = ("hello world" ++ nl ++ "again here")%string.
Proof. vm_compute. repeat split. Qed.

(** C6 (amended): the key points are the stripped bodies of the sections
    whose stripped body has more than 10 and fewer than 200 characters,
    each with its newlines turned into spaces; when there are fewer than 3
    of them, the first sentences longer than 10 characters of the sections
    whose (unstripped) body has more than 200 characters are added in
    order until there are 5 key points or no more candidates; at most 7
    are kept. *)
Theorem extract_structured_content_key_points (text doc_type : string) :
  sc_key_points (extract_structured_content text doc_type)
  = key_points_spec (sc_sections (extract_structured_content text doc_type)) /\
  (List.length (sc_key_points (extract_structured_content text doc_type)) <= 7)%nat.
Proof.
  assert (E : sc_key_points (extract_structured_content text doc_type)
              = key_points_spec (sc_sections (extract_structured_content text doc_type))).
  { unfold extract_structured_content.
    destruct (String.eqb text "" || (String.length (strip text) <? 10)%nat);
      [reflexivity|].
    simpl. apply key_points_of_spec. }
  split; [exact E|]. rewrite E. unfold key_points_spec. rewrite length_firstn. lia.
Qed.

(* ------------------------------------------------------------------ *)
(** ** Reading TXT files *)

Lemma utf8_replace_total (fuel : nat) (bs : bytes) :
  utf8_decode_fuel fuel Replace bs <> None.
Proof.
  revert bs. induction fuel as [|f IH]; intros bs; simpl; [discriminate|].
  destruct bs as [|b t]; [discriminate|].
  destruct (utf8_step b t) as [[cp|] rest].
  - destruct (utf8_decode_fuel f Replace rest) eqn:E; [discriminate | contradiction (IH rest)].
  - destruct (utf8_decode_fuel f Replace rest) eqn:E; [discriminate | contradiction (IH rest)].
Qed.

(** C8: the first read uses [errors='replace'], which never raises, so
    the legacy encodings are never tried: every file is read as UTF-8
    with each ill-formed sequence replaced by U+FFFD, and no decode error
    is ever raised.  On the Latin-1 bytes of "cafe" with an accented e,
    UTF-8 decoding fails and Latin-1 succeeds, yet the text read ends in
    U+FFFD. *)
Theorem read_txt_replaces_invalid_utf8 :
  (forall bs, exists t, decode Utf8 Replace bs = Some t /\
                        read_txt bs = inl (universal_newlines t)) /\
  decode Utf8 Strict cafe_latin1 = None /\
  try_encodings [Latin1; Iso8859_1; Windows1252] cafe_latin1
  = Some (99 :: 97 :: 102 :: 233 :: nil)%Z /\
  process_document cafe_txt = TxtDone (99 :: 97 :: 102 :: 65533 :: nil)%Z.
Proof.
  split.
  - intros bs. unfold read_txt, open_read.
    destruct (decode Utf8 Replace bs) as [t|] eqn:E.
    + exists t. split; reflexivity.
    + exfalso. exact (utf8_replace_total _ _ E).
  - vm_compute. repeat split.
Qed.

(* ------------------------------------------------------------------ *)
(** ** Large PDF files *)

(** C9, as stated, fails: a PDF of 20 MB is above the large-file
    threshold and gets the skip flag, but [process_pdf] is called with
    [skip_images=False] and its images are kept. *)
Lemma process_document_mid_size_pdf_images :
  (15 * mb < up_size mid_size_pdf <= 25 * mb)%Z /\
  exists r, process_document mid_size_pdf = PdfDone r [false] /\
            pr_skip_ai r = true /\ pr_images r = [photo "img0"].
Proof.
  split; [vm_compute; split; [reflexivity | discriminate]|].
  eexists. split; [reflexivity | split; reflexivity].
Qed.

(** C9 (amended): a PDF above 15 MB gets the skip flag, with its text
    kept; above 25 MB [process_pdf] is called with [skip_images=True] and
    no image is kept; from 15 MB to 25 MB it is called with
    [skip_images=False] and the images are extracted and kept. *)
Theorem process_document_large_pdf (u : upload) :
  up_ext u = "pdf" -> (15 * mb < up_size u)%Z ->
  exists r args,
    process_document u = PdfDone r args /\
    pr_skip_ai r = true /\ pr_text r = pdf_text (up_pdf u) /\
    ((25 * mb < up_size u)%Z -> args = [true] /\ pr_images r = []) /\
    ((up_size u <= 25 * mb)%Z -> args = [false] /\ pr_images r = pdf_images (up_pdf u)).
Proof.
  intros He Hs. unfold process_document. rewrite He. cbn [String.eqb Ascii.eqb Bool.eqb].
  unfold process_document_pdf.
  replace (15 * mb <? up_size u)%Z with true by (symmetry; apply Z.ltb_lt; exact Hs).
  destruct (25 * mb <? up_size u)%Z eqn:E.
  - apply Z.ltb_lt in E. unfold process_pdf. cbn.
    eexists _, _. split; [reflexivity|].
    split; [reflexivity|]. split; [reflexivity|].
    split; [intros _; split; reflexivity | intros H; unfold mb in *; lia].
  - apply Z.ltb_ge in E. unfold process_pdf. cbn.
    eexists _, _. split; [reflexivity|].
    split; [reflexivity|]. split; [reflexivity|].
    split; [intros H; unfold mb in *; lia | intros _; split; reflexivity].
Qed.

Lemma process_document_large_pdf_witness :
  up_ext mid_size_pdf = "pdf" /\ (15 * mb < up_size mid_size_pdf)%Z /\
  exists r args,
    process_document mid_size_pdf = PdfDone r args /\
    pr_skip_ai r = true /\ pr_text r = pdf_text (up_pdf mid_size_pdf) /\
    ((25 * mb < up_size mid_size_pdf)%Z -> args = [true] /\ pr_images r = []) /\
    ((up_size mid_size_pdf <= 25 * mb)%Z ->
     args = [false] /\ pr_images r = pdf_images (up_pdf mid_size_pdf)).
Proof.
  split; [reflexivity|]. split; [vm_compute; reflexivity|].
  apply process_document_large_pdf; [reflexivity | vm_compute; reflexivity].
Defined.

(* ------------------------------------------------------------------ *)
(** ** [split_text] *)

Lemma string_length_app (a b : string) :
  String.length (a ++ b) = (String.length a + String.length b)%nat.
Proof. induction a as [|c a IH]; simpl; [reflexivity | rewrite IH; reflexivity]. Qed.

Lemma rev_str_acc (s acc : string) : rev_str s acc = (rev_str s "" ++ acc)%string.
Proof.
  revert acc. induction s as [|c s IH]; intros acc; simpl; [reflexivity|].
  rewrite IH, (IH (String c "")), string_app_assoc. reflexivity.
Qed.

Lemma concat_empty_cons (x : string) (l : list string) :
  String.concat "" (x :: l) = (x ++ String.concat "" l)%string.
Proof. destruct l; simpl; [rewrite string_app_nil_r|]; reflexivity. Qed.

Lemma concat_empty_app (l1 l2 : list string) :
  String.concat "" (l1 ++ l2) = (String.concat "" l1 ++ String.concat "" l2)%string.
Proof.
  induction l1 as [|x l1 IH]; [reflexivity|].
  rewrite <- app_comm_cons, !concat_empty_cons, IH, string_app_assoc. reflexivity.
Qed.

(** Joining the fields of [split("\n\n")], each followed by the
    separator, gives back the text followed by the separator. *)
Lemma split_nn_aux_join (s cur : string) :
  String.concat "" (map (fun p => p ++ nn) (split_nn_aux s cur))
  = (reverse cur ++ s ++ nn)%string.
Proof.
  remember (String.length s) as n eqn:Hn.
  revert s cur Hn. induction n as [n IH] using lt_wf_ind. intros s cur Hn.
  destruct s as [|c t]; simpl.
  - reflexivity.
  - destruct t as [|c' t'].
    + rewrite (IH 0%nat) by (simpl in *; lia). unfold reverse. simpl.
      rewrite (rev_str_acc cur (String c "")), string_app_assoc. reflexivity.
    + destruct (Ascii.eqb c "010" && Ascii.eqb c' "010")%bool eqn:E.
      * apply andb_true_iff in E as [E1 E2].
        apply Ascii.eqb_eq in E1, E2. subst c c'.
        cbn [map]. rewrite concat_empty_cons.
        rewrite (IH (String.length t')) by (simpl in *; lia).
        unfold nn, nl, reverse. simpl. rewrite string_app_assoc. reflexivity.
      * rewrite (IH (String.length (String c' t'))) by (simpl in *; lia).
        unfold reverse. simpl.
        rewrite (rev_str_acc cur (String c "")), string_app_assoc. reflexivity.
Qed.

Lemma split_text_fold_concat (m : Z) (ps : list string) (chunks : list string) (cur : string) :
  let st := fold_left (split_text_step m) ps (chunks, cur) in
  (String.concat "" (fst st) ++ snd st)%string
  = (String.concat "" chunks ++ cur ++ String.concat "" (map (fun p => p ++ nn) ps))%string.
Proof.
  cbv zeta. revert chunks cur. induction ps as [|p ps IH]; intros chunks cur; cbn [fold_left map].
  - cbn [fst snd String.concat]. rewrite string_app_nil_r. reflexivity.
  - cbn [split_text_step].
    destruct (py_len cur + py_len p <? m)%Z; rewrite IH; rewrite concat_empty_cons.
    + rewrite !string_app_assoc. reflexivity.
    + rewrite concat_empty_app. cbn [String.concat].
      rewrite !string_app_assoc. reflexivity.
Qed.

Lemma split_nn_cons (s : string) : exists p ps, split_nn s = p :: ps.
Proof.
  unfold split_nn. generalize EmptyString as cur.
  remember (String.length s) as n eqn:Hn.
  revert s Hn. induction n as [n IH] using lt_wf_ind. intros s Hn cur.
  destruct s as [|c t]; simpl; [eauto|].
  destruct t as [|c' t']; [simpl; eauto|].
  destruct (Ascii.eqb c "010" && Ascii.eqb c' "010")%bool; [eauto|].
  apply (IH (String.length (String c' t'))); [simpl in *; lia | reflexivity].
Qed.

(** After the first paragraph the current chunk is never empty, so no
    empty chunk is added; each chunk added is shorter than
    [max_tokens + 2] characters or is one paragraph and its separator. *)
Lemma split_text_fold_shape (m : Z) (ps all : list string) (chunks : list string) (cur : string) :
  cur <> "" ->
  (forall p, In p ps -> In p all) ->
  ((py_len cur < m + 2)%Z \/ exists p, In p all /\ cur = (p ++ nn)%string) ->
  let st := fold_left (split_text_step m) ps (chunks, cur) in
  exists added, fst st = (chunks ++ added)%list /\ snd st <> "" /\
    ((py_len (snd st) < m + 2)%Z \/ exists p, In p all /\ snd st = (p ++ nn)%string) /\
    (forall c, In c added -> c <> "" /\
       ((py_len c < m + 2)%Z \/ exists p, In p all /\ c = (p ++ nn)%string)).
Proof.
  cbv zeta. revert chunks cur.
  induction ps as [|p ps IH]; intros chunks cur Hc Hin Hq; cbn [fold_left fst snd].
  - exists []. rewrite app_nil_r. split; [reflexivity|]. split; [exact Hc|].
    split; [exact Hq|]. intros x [].
  - cbn [split_text_step].
    destruct (py_len cur + py_len p <? m)%Z eqn:E.
    + apply Z.ltb_lt in E.
      destruct (IH chunks (cur ++ p ++ nn)%string) as (added & H1 & H2 & H3 & H4).
      * destruct cur; [congruence | discriminate].
      * intros q Hq'. apply Hin. right; exact Hq'.
      * left. unfold py_len in *. rewrite !string_length_app. unfold nn, nl. simpl. lia.
      * exists added. auto.
    + destruct (IH (chunks ++ [cur])%list (p ++ nn)%string) as (added & H1 & H2 & H3 & H4).
      * destruct p; discriminate.
      * intros q Hq'. apply Hin. right; exact Hq'.
      * right. exists p. split; [apply Hin; left; reflexivity | reflexivity].
      * exists (cur :: added). rewrite H1, <- app_assoc. split; [reflexivity|].
        split; [exact H2|]. split; [exact H3|].
        intros c [E'|Hc']; [subst c; split; assumption | apply H4; exact Hc'].
Qed.

(** [split_text] loses nothing: its chunks, concatenated, give back the
    text followed by one paragraph separator, whatever [max_tokens]. *)
Theorem split_text_concat (text : string) (max_tokens : Z) :
  String.concat "" (split_text text max_tokens) = (text ++ nn)%string.
Proof.
  unfold split_text.
  pose proof (split_text_fold_concat max_tokens (split_nn text) [] "") as H.
  cbv zeta in H. unfold split_nn in H. rewrite split_nn_aux_join in H.
  unfold split_nn.
  destruct (fold_left (split_text_step max_tokens) (split_nn_aux text "") ([], ""))
    as [chunks cur]. cbn [fst snd] in H.
  destruct (String.eqb cur "") eqn:E.
  - apply String.eqb_eq in E. subst cur. rewrite string_app_nil_r in H. exact H.
  - rewrite concat_empty_app. cbn [String.concat]. exact H.
Qed.

(** The chunks of [split_text]: the first one is empty exactly when the
    first paragraph has [max_tokens] characters or more; no other chunk
    is empty; every chunk is shorter than [max_tokens + 2] characters or
    is a single paragraph followed by the separator (a long paragraph is
    never cut). *)
Theorem split_text_chunks (text : string) (max_tokens : Z) :
  exists p0 rest, split_nn text = p0 :: rest /\
  exists chunks,
    split_text text max_tokens
    = ((if (py_len p0 <? max_tokens)%Z then [] else [""]) ++ chunks)%list /\
    forall c, In c chunks -> c <> "" /\
      ((py_len c < max_tokens + 2)%Z \/
       exists p, In p (split_nn text) /\ c = (p ++ nn)%string).
Proof.
  destruct (split_nn_cons text) as (p0 & rest & E).
  exists p0, rest. split; [exact E|].
  unfold split_text. rewrite E. cbn [fold_left split_text_step].
  assert (Hne : (p0 ++ nn)%string <> "") by (destruct p0; discriminate).
  assert (Hall : forall p, In p rest -> In p (split_nn text))
    by (intros p Hp; rewrite E; right; exact Hp).
  assert (Hq : (py_len (p0 ++ nn) < max_tokens + 2)%Z \/
               exists p, In p (split_nn text) /\ (p0 ++ nn)%string = (p ++ nn)%string)
    by (right; exists p0; split; [rewrite E; left|]; reflexivity).
  replace (py_len "" + py_len p0)%Z with (py_len p0) by reflexivity.
  destruct (py_len p0 <? max_tokens)%Z;
    [ destruct (split_text_fold_shape max_tokens rest (split_nn text) [] (p0 ++ nn)
                  Hne Hall Hq) as (added & H1 & H2 & H3 & H4)
    | destruct (split_text_fold_shape max_tokens rest (split_nn text) [""] (p0 ++ nn)
                  Hne Hall Hq) as (added & H1 & H2 & H3 & H4) ];
    destruct (fold_left (split_text_step max_tokens) rest _) as [chunks cur];
    cbn [fst snd] in *; subst chunks; rewrite E in H4, H3;
    (replace (String.eqb cur "") with false
       by (symmetry; apply String.eqb_neq; exact H2));
    exists (added ++ [cur])%list;
    (split; [rewrite app_assoc; reflexivity|]);
    intros c Hc; apply in_app_or in Hc as [Hc|[Hc|[]]];
    [apply H4; exact Hc | subst c; split; assumption | apply H4; exact Hc
    | subst c; split; assumption].
Qed.

(* ------------------------------------------------------------------ *)
(** ** File extensions *)

Lemma prefix_empty (s : string) : prefix "" s = true.
Proof. destruct s; reflexivity. Qed.

Lemma contains_dot_cons (c : ascii) (t : string) :
  contains "." (String c t) = (Ascii.eqb c "." || contains "." t)%bool.
Proof.
  change (contains "." (String c t))
    with ((match ascii_dec "." c with left _ => prefix "" t | right _ => false end)
          || contains "." t)%bool.
  destruct (ascii_dec "." c) as [E|E].
  - subst c. rewrite prefix_empty. reflexivity.
  - replace (Ascii.eqb c ".") with false
      by (symmetry; apply Ascii.eqb_neq; congruence).
    reflexivity.
Qed.

Lemma rsplit1_none (s : string) : rsplit1 "." s = None <-> contains "." s = false.
Proof.
  induction s as [|c t IH]; [split; reflexivity|].
  rewrite contains_dot_cons. simpl.
  destruct (rsplit1 "." t) as [[a b]|].
  - split; [discriminate|]. intros H. apply orb_false_iff in H as [_ H].
    apply IH in H. discriminate.
  - destruct (Ascii.eqb c "."); simpl; [split; discriminate|]. exact IH.
Qed.

Lemma rsplit1_some (s a b : string) :
  rsplit1 "." s = Some (a, b) -> s = (a ++ "." ++ b)%string /\ contains "." b = false.
Proof.
  revert a. induction s as [|c t IH]; intros a; simpl; [discriminate|].
  destruct (rsplit1 "." t) as [[a' b']|] eqn:E.
  - intros H. injection H as <- <-. destruct (IH a' eq_refl) as [-> Hb].
    split; [reflexivity | exact Hb].
  - destruct (Ascii.eqb c ".") eqn:Ec; [|discriminate].
    intros H. injection H as <- <-. apply Ascii.eqb_eq in Ec. subst c.
    split; [reflexivity|]. apply rsplit1_none. exact E.
Qed.

Lemma rsplit1_last (a b : string) :
  contains "." b = false -> rsplit1 "." (a ++ "." ++ b) = Some (a, b).
Proof.
  intros Hb. change ("." ++ b)%string with (String "." b).
  induction a as [|c a IH]; simpl.
  - apply rsplit1_none in Hb. rewrite Hb. reflexivity.
  - rewrite IH. reflexivity.
Qed.

Lemma rev_str_rev_str (s acc r : string) :
  rev_str (rev_str s acc) r = rev_str acc (s ++ r).
Proof.
  revert acc. induction s as [|c t IH]; intros acc; simpl; [reflexivity|].
  rewrite IH. reflexivity.
Qed.

Lemma split_char_no_sep (b cur : string) :
  contains "." b = false -> split_char_aux "." b cur = [rev_str (rev_str b cur) ""].
Proof.
  revert cur. induction b as [|c t IH]; intros cur Hb; simpl; [reflexivity|].
  rewrite contains_dot_cons in Hb. apply orb_false_iff in Hb as [Hc Ht].
  rewrite Hc. apply IH, Ht.
Qed.

Lemma split_char_aux_cons (sep : ascii) (s cur : string) :
  exists x l, split_char_aux sep s cur = x :: l.
Proof.
  revert cur. induction s as [|c t IH]; intros cur; simpl; [eauto|].
  destruct (Ascii.eqb c sep); [eauto | apply IH].
Qed.

Lemma split_char_last (a b cur : string) :
  contains "." b = false -> last (split_char_aux "." (a ++ "." ++ b) cur) "" = b.
Proof.
  intros Hb. change ("." ++ b)%string with (String "." b).
  revert cur. induction a as [|c a IH]; intros cur; simpl.
  - rewrite split_char_no_sep by exact Hb. simpl.
    rewrite rev_str_rev_str, string_app_nil_r. reflexivity.
  - destruct (Ascii.eqb c "."); [|apply IH].
    destruct (split_char_aux_cons "." (a ++ String "." b) "") as (x & l & E).
    specialize (IH ""). rewrite E in IH |- *. exact IH.
Qed.

(** [allowed_file] accepts exactly the names [name.ext] whose extension
    (the text after the last dot) is, lower-cased, in the list; and on an
    accepted name the extension [process_document] dispatches on is that
    same lower-cased extension. *)
Theorem allowed_file_spec (filename : string) (exts : list string) :
  (allowed_file filename exts = true <->
   exists name ext, filename = (name ++ "." ++ ext)%string /\
                    contains "." ext = false /\ In (lower ext) exts) /\
  (allowed_file filename exts = true -> In (file_extension filename) exts).
Proof.
  assert (Hfwd : allowed_file filename exts = true ->
                 exists name ext, filename = (name ++ "." ++ ext)%string /\
                                  contains "." ext = false /\ In (lower ext) exts).
  { unfold allowed_file, rsplit_dot_1. intros H. apply andb_true_iff in H as [Hc He].
    destruct (rsplit1 "." filename) as [[a b]|] eqn:E.
    - apply rsplit1_some in E as [-> Hb]. exists a, b. split; [reflexivity|].
      split; [exact Hb|].
      apply existsb_exists in He as (x & Hx & Ex). apply String.eqb_eq in Ex.
      rewrite Ex. exact Hx.
    - apply rsplit1_none in E. congruence. }
  split; [split; [exact Hfwd|]|].
  - intros (name & ext & -> & Hd & Hin). unfold allowed_file, rsplit_dot_1.
    rewrite rsplit1_last by exact Hd.
    apply andb_true_iff. split.
    + apply contains_app_l. apply (contains_here "." ext).
    + apply existsb_exists. exists (lower ext). split; [exact Hin | apply String.eqb_refl].
  - intros H. destruct (Hfwd H) as (name & ext & -> & Hd & Hin).
    unfold file_extension.
    replace (contains "." (name ++ "." ++ ext)) with true
      by (symmetry; apply contains_app_l, (contains_here "." ext)).
    unfold split_char. rewrite split_char_last by exact Hd. exact Hin.
Qed.

(* ------------------------------------------------------------------ *)
(** ** What [select_key_images] and the fallback generator return *)

Lemma map_snd_score_all (t : string) (k : nat) (l : list image) :
  map snd (score_all t k l) = l.
Proof.
  revert k. induction l as [|x l IH]; intros k; simpl; [reflexivity | rewrite IH; reflexivity].
Qed.

Lemma select_key_images_sub (images : list image) (cs : json) (m : nat) (sel : list image) :
  select_key_images images cs m = Some sel ->
  List.length sel = Nat.min m (List.length images) /\
  exists rest, Permutation images (sel ++ rest).
Proof.
  unfold select_key_images. destruct images as [|i0 more] eqn:Ei.
  - intros H. injection H as <-. split; [simpl; lia | exists []; constructor].
  - rewrite <- Ei. destruct (List.length images <=? m)%nat eqn:Hm.
    + intros H. injection H as <-. apply Nat.leb_le in Hm.
      split; [lia | exists []; rewrite app_nil_r; reflexivity].
    + apply Nat.leb_gt in Hm.
      destruct (case_study_text cs) as [t|]; [|discriminate].
      intros H. injection H as <-.
      set (L := sort_desc (score_all t 0 images)).
      assert (HP : Permutation L (score_all t 0 images)) by apply sort_desc_perm.
      split.
      * rewrite length_map, length_firstn, (Permutation_length HP), score_all_length.
        reflexivity.
      * exists (map snd (skipn m L)). rewrite <- map_app, firstn_skipn.
        rewrite <- (map_snd_score_all t 0 images) at 1.
        apply Permutation_map. symmetry. exact HP.
Qed.

(** [select_key_images] returns [min(max_images, len(images))] images,
    each taken from a different position of the input list. *)
Theorem select_key_images_picks (images : list image) (cs : json) (m : nat)
  (sel : list image) :
  select_key_images images cs m = Some sel ->
  List.length sel = Nat.min m (List.length images) /\
  exists rest, Permutation images (sel ++ rest).
Proof. apply select_key_images_sub. Qed.

Lemma select_key_images_picks_witness :
  select_key_images process_map_images JNull 3
  = Some [mk_image "i3" "process map"; photo "i0"; photo "i1"] /\
  List.length [mk_image "i3" "process map"; photo "i0"; photo "i1"]
  = Nat.min 3 (List.length process_map_images) /\
  exists rest, Permutation process_map_images
                 ([mk_image "i3" "process map"; photo "i0"; photo "i1"] ++ rest).
Proof.
  split; [vm_compute; reflexivity|].
  apply (select_key_images_picks process_map_images JNull 3). vm_compute. reflexivity.
Defined.

Lemma fallback_images_sub (d : doc_data) (audience : string) :
  exists cs sel kps,
    _generate_fallback_case_study d audience = Some cs /\
    dict_get cs "images" = Some (JArr (map image_json sel)) /\
    (List.length sel <= 3)%nat /\
    (exists rest, Permutation (get_images d) (sel ++ rest)) /\
    dict_get cs "key_points" = Some (JArr (map JStr kps)) /\ kps <> [].
Proof.
  unfold _generate_fallback_case_study. cbv zeta.
  match goal with
  | |- context [match select_key_images ?i ?c 3 with _ => _ end] =>
      destruct (select_key_images i c 3) as [sel|] eqn:E
  end.
  - apply select_key_images_sub in E as [Hl Hp].
    match goal with
    | |- exists cs sel' kps, Some ?v = Some cs /\ _ => exists v
    end.
    exists sel. eexists.
    split; [reflexivity|]. split; [reflexivity|]. split; [lia|].
    split; [exact Hp|]. split; [reflexivity|].
    match goal with |- (if nonempty ?l then _ else _) <> [] => destruct l; discriminate end.
  - exfalso. revert E. apply select_key_images_on_strings.
Qed.

(** The fallback generator always returns a case study whose key points
    are a non-empty list of strings and whose images are at most 3 of the
    document's images, each from a different position. *)
Theorem fallback_case_study_images (d : doc_data) (audience : string) :
  exists cs sel kps,
    _generate_fallback_case_study d audience = Some cs /\
    dict_get cs "images" = Some (JArr (map image_json sel)) /\
    (List.length sel <= 3)%nat /\
    (exists rest, Permutation (get_images d) (sel ++ rest)) /\
    dict_get cs "key_points" = Some (JArr (map JStr kps)) /\ kps <> [].
Proof. apply fallback_images_sub. Qed.

(** *** Lengths of the fallback's text fields *)

Lemma take_length_le (n : nat) (s : string) : (String.length (take n s) <= n)%nat.
Proof.
  unfold take. revert n. induction s as [|c t IH]; intros n; destruct n; simpl; try lia.
  specialize (IH n). lia.
Qed.

Lemma concat_length_bound (sep : string) (k : nat) (l : list string) :
  l <> [] -> Forall (fun x => String.length x <= k)%nat l ->
  (String.length (String.concat sep l) + String.length sep
   <= List.length l * (k + String.length sep))%nat.
Proof.
  induction l as [|x l IH]; intros Hne Hall; [congruence|].
  inversion Hall as [|? ? Hx Hl]; subst.
  destruct l as [|y l].
  - simpl. lia.
  - change (String.concat sep (x :: y :: l)) with (x ++ sep ++ String.concat sep (y :: l))%string.
    rewrite !string_length_app.
    specialize (IH ltac:(discriminate) Hl). cbn [List.length] in *. nia.
Qed.

Definition fields_bounded (f : cs_fields) : Prop :=
  (String.length (f_challenge f) <= 800 /\ String.length (f_approach f) <= 800 /\
   String.length (f_solution f) <= 800 /\ String.length (f_outcomes f) <= 800 /\
   String.length (f_summary f) <= 452)%nat.

Lemma if_some_bounded (l : list string) (dflt : string) :
  (String.length dflt <= 800)%nat -> (String.length (if_some l dflt) <= 800)%nat.
Proof. intros H. unfold if_some. destruct (nonempty l); [apply take_length_le | exact H]. Qed.

Lemma pptx_fields_bounded (text : string) (kps : list string) :
  fields_bounded (fst (pptx_fields text kps)).
Proof.
  unfold pptx_fields. cbv zeta.
  destruct (fold_left pass2_step _ _) as [ch ap so ou].
  unfold fields_bounded. cbn [fst f_challenge f_approach f_solution f_outcomes f_summary].
  repeat split; try (apply if_some_bounded; vm_compute; lia).
  match goal with |- (String.length (if ?b then _ else _) <= _)%nat => destruct b end.
  - etransitivity; [apply take_length_le|]. lia.
  - vm_compute. lia.
Qed.

Lemma section_fields_bounded (sections : list section) (f : cs_fields) :
  fields_bounded f -> fields_bounded (section_fields sections f).
Proof.
  intros (H1 & H2 & H3 & H4 & H5). unfold section_fields.
  destruct (nonempty sections); [|repeat split; assumption].
  set (sc := filter _ _).
  assert (Hpick : forall n dflt, (String.length dflt <= 800)%nat ->
            (String.length (match nth_error sc n with Some c => take 800 c | None => dflt end)
             <= 800)%nat).
  { intros n dflt Hd. destruct (nth_error sc n); [apply take_length_le | exact Hd]. }
  unfold fields_bounded. cbn [f_challenge f_approach f_solution f_outcomes f_summary].
  repeat split; try (apply Hpick; assumption).
  set (l := map (take 150) (firstn 3 sc)).
  assert (Hl : (List.length l <= 3)%nat).
  { unfold l. rewrite length_map, length_firstn. lia. }
  assert (Hf : Forall (fun x => String.length x <= 150)%nat l).
  { unfold l. apply Forall_map, Forall_forall. intros x _. apply take_length_le. }
  unfold join. destruct l as [|x l'] eqn:El; [simpl; lia|].
  pose proof (concat_length_bound " " 150 (x :: l') ltac:(discriminate) Hf) as Hc.
  change (String.length " ") with 1%nat in Hc. nia.
Qed.

Lemma fallback_fields_bounded (d : doc_data) :
  let key_points := get_key_points d in
  let defaults := mk_fields default_challenge default_approach default_solution
                    default_outcomes default_summary key_points in
  fields_bounded
    (if String.eqb (lower (get_file_type d)) "pptx" then
       let '(f1, mk_buckets ch ap so ou) := pptx_fields (get_text d) key_points in
       if nonempty ch || nonempty ap || nonempty so || nonempty ou then f1
       else section_fields (get_sections d) f1
     else section_fields (get_sections d) defaults).
Proof.
  cbv zeta. destruct (String.eqb _ "pptx").
  - pose proof (pptx_fields_bounded (get_text d) (get_key_points d)) as Hb.
    destruct (pptx_fields _ _) as [f1 [ch ap so ou]]. simpl in Hb.
    destruct (_ || _)%bool; [exact Hb | apply section_fields_bounded; exact Hb].
  - apply section_fields_bounded. unfold fields_bounded; simpl; lia.
Qed.

(** Whatever the document, the fallback case study's challenge, approach,
    solution and outcomes hold at most 800 characters and its summary at
    most 452 (three 150-character parts and two spaces). *)
Theorem fallback_case_study_lengths (d : doc_data) (audience : string) :
  exists cs, _generate_fallback_case_study d audience = Some cs /\
  (forall k, In k ["challenge"; "approach"; "solution"; "outcomes"] ->
     exists s, dict_get cs k = Some (JStr s) /\ (String.length s <= 800)%nat) /\
  exists s, dict_get cs "summary" = Some (JStr s) /\ (String.length s <= 452)%nat.
Proof.
  pose proof (fallback_fields_bounded d) as Hb. cbv zeta in Hb.
  unfold _generate_fallback_case_study. cbv zeta.
  set (f := if String.eqb (lower (get_file_type d)) "pptx" then _ else _) in *.
  destruct Hb as (H1 & H2 & H3 & H4 & H5).
  match goal with
  | |- context [match select_key_images ?i ?c 3 with _ => _ end] =>
      destruct (select_key_images i c 3) as [sel|] eqn:E
  end.
  - eexists. split; [reflexivity|]. split.
    + intros k Hk. simpl in Hk.
      destruct Hk as [<-|[<-|[<-|[<-|[]]]]]; eexists; (split; [reflexivity|]); assumption.
    + eexists. split; [reflexivity|]. exact H5.
  - exfalso. revert E. apply select_key_images_on_strings.
Qed.

(** *** The truncation of large inputs *)

Lemma substring_length_le (n m : nat) (s : string) :
  (String.length (substring n m s) <= m)%nat.
Proof.
  revert n m. induction s as [|c t IH]; intros n m; destruct n, m; simpl; try lia.
  - specialize (IH 0%nat m). lia.
  - apply IH.
  - apply IH.
Qed.

Lemma zlast_len (n : Z) (s : string) : (0 <= n -> py_len (zlast n s) <= n)%Z.
Proof.
  intros Hn. unfold py_len, zlast, last_chars, drop.
  pose proof (substring_length_le (String.length s - Z.to_nat n)
                (String.length s - (String.length s - Z.to_nat n)) s). lia.
Qed.

Lemma ztake_len (n : Z) (s : string) : (0 <= n -> py_len (ztake n s) <= n)%Z.
Proof. intros Hn. unfold py_len, ztake. pose proof (take_length_le (Z.to_nat n) s). lia. Qed.

Lemma py_len_app (a b : string) : py_len (a ++ b) = (py_len a + py_len b)%Z.
Proof. unfold py_len. rewrite string_length_app. lia. Qed.

Lemma in_firstn_in {A} (n : nat) (l : list A) (x : A) : In x (firstn n l) -> In x l.
Proof. intros H. rewrite <- (firstn_skipn n l). apply in_or_app. left. exact H. Qed.

Lemma in_skipn_in {A} (n : nat) (l : list A) (x : A) : In x (skipn n l) -> In x l.
Proof. intros H. rewrite <- (firstn_skipn n l). apply in_or_app. right. exact H. Qed.

(** The sections [keep_sections] keeps: the first five, three from the
    first third when there are more than fifteen, and the last five; with
    fewer than ten sections some of them are kept twice. *)
Theorem keep_sections_length (sections : list section) :
  List.length (keep_sections sections)
  = (Nat.min 5 (List.length sections)
     + (if (15 <? List.length sections)%nat then 3 else 0)
     + Nat.min 5 (List.length sections))%nat /\
  (forall s, In s (keep_sections sections) -> In s sections).
Proof.
  unfold keep_sections. split.
  - rewrite !length_app, length_firstn, length_skipn.
    destruct (15 <? List.length sections)%nat eqn:E.
    + apply Nat.ltb_lt in E.
      rewrite length_firstn, length_skipn.
      pose proof (Nat.div_mod_eq (List.length sections) 3).
      pose proof (Nat.mod_upper_bound (List.length sections) 3 ltac:(lia)).
      lia.
    + cbn [List.length]. lia.
  - intros s H. apply in_app_or in H as [H|H]; [exact (in_firstn_in _ _ _ H)|].
    apply in_app_or in H as [H|H].
    + destruct (15 <? _)%nat; [|contradiction].
      exact (in_skipn_in _ _ _ (in_firstn_in _ _ _ H)).
    + exact (in_skipn_in _ _ _ H).
Qed.

Lemma substring_prefix (m : nat) (s : string) :
  exists post, s = (substring 0 m s ++ post)%string.
Proof.
  revert m. induction s as [|c t IH]; intros m; destruct m as [|m]; simpl.
  - exists "". reflexivity.
  - exists "". reflexivity.
  - exists (String c t). reflexivity.
  - destruct (IH m) as [post E]. exists post. rewrite E at 1. reflexivity.
Qed.

Lemma substring_infix (n m : nat) (s : string) :
  exists pre post, s = (pre ++ substring n m s ++ post)%string.
Proof.
  revert n. induction s as [|c t IH]; intros n.
  - destruct n, m; exists "", ""; reflexivity.
  - destruct n as [|n].
    + destruct (substring_prefix m (String c t)) as [post E]. exists "", post. exact E.
    + destruct (IH n) as (pre & post & E). exists (String c pre), post.
      simpl. rewrite E at 1. reflexivity.
Qed.

Lemma substring_full (s : string) : substring 0 (String.length s) s = s.
Proof. induction s as [|c t IH]; simpl; [reflexivity | rewrite IH; reflexivity]. Qed.

Lemma drop_suffix (n : nat) (s : string) : exists pre, s = (pre ++ drop n s)%string.
Proof.
  unfold drop. revert n. induction s as [|c t IH]; intros n.
  - exists "". destruct n; reflexivity.
  - destruct n as [|n].
    + exists "". cbn [String.length]. rewrite Nat.sub_0_r.
      cbn [substring]. rewrite substring_full. reflexivity.
    + destruct (IH n) as [pre E]. exists (String c pre).
      cbn [String.length substring Nat.sub]. rewrite E at 1. reflexivity.
Qed.

(** The positional truncation: the first 10000 characters of the text,
    then, below 100000 characters, the "[...content truncated...]" marker,
    a piece of at most 2000 characters cut from the text and the marker
    again, or, from 100000 characters on, the "[...most content
    truncated...]" marker, then the last 5000 characters of the text; each
    marker stands between two blank-line separators.  The result has at
    most 17058 characters, and at most 15034 from 100000 characters on. *)
Theorem positional_truncation_shape (text : string) :
  let sep := (nl ++ nl)%string in
  (exists post, text = (ztake 10000 text ++ post)%string) /\
  (exists pre, text = (pre ++ zlast 5000 text)%string) /\
  ((py_len text < 100000)%Z ->
   exists pre mid post,
     text = (pre ++ mid ++ post)%string /\ (py_len mid <= 2000)%Z /\
     positional_truncation text
     = (ztake 10000 text ++ sep ++ content_marker ++ sep ++ mid ++ sep
        ++ content_marker ++ sep ++ zlast 5000 text)%string) /\
  ((100000 <= py_len text)%Z ->
   positional_truncation text
   = (ztake 10000 text ++ sep ++ most_content_marker ++ sep ++ zlast 5000 text)%string) /\
  (py_len (positional_truncation text) <= 17058)%Z /\
  ((100000 <= py_len text)%Z -> (py_len (positional_truncation text) <= 15034)%Z).
Proof.
  cbv zeta.
  pose proof (zlast_len 5000 text ltac:(lia)) as HL.
  pose proof (ztake_len 10000 text ltac:(lia)) as HF.
  assert (Hnl : py_len nl = 1%Z) by reflexivity.
  assert (Hc : py_len content_marker = 25%Z) by reflexivity.
  assert (Hm : py_len most_content_marker = 30%Z) by reflexivity.
  split; [apply substring_prefix|].
  split; [unfold zlast, last_chars; apply drop_suffix|].
  unfold positional_truncation. cbv zeta.
  destruct (py_len text <? 100000)%Z eqn:E.
  - match goal with |- context [zslice ?a ?b text] => set (m := zslice a b text) end.
    assert (Hml : (py_len m <= 2000)%Z).
    { unfold m, zslice, slice.
      match goal with |- (py_len (take ?k ?x) <= _)%Z =>
        pose proof (take_length_le k x) end.
      unfold py_len at 1. lia. }
    assert (Hin : exists pre post, text = (pre ++ m ++ post)%string).
    { unfold m, zslice, slice, take.
      match goal with |- context [drop ?a text] =>
        destruct (drop_suffix a text) as [p1 E1];
        destruct (substring_prefix (Z.to_nat (py_len text / 2 - 1000 + 2000)
                    - Z.to_nat (py_len text / 2 - 1000)) (drop a text)) as [p2 E2]
      end.
      exists p1, p2. rewrite E1 at 1. rewrite E2 at 1. reflexivity. }
    split; [|split; [|split]].
    + intros _. destruct Hin as (pre & post & Ht). exists pre, m, post.
      split; [exact Ht|]. split; [exact Hml|]. rewrite !string_app_assoc. reflexivity.
    + intros H. apply Z.ltb_lt in E. lia.
    + rewrite !py_len_app. lia.
    + intros H. apply Z.ltb_lt in E. lia.
  - split; [|split; [|split]].
    + intros H. apply Z.ltb_ge in E. lia.
    + intros _. rewrite !string_app_assoc. reflexivity.
    + rewrite !py_len_app. lia.
    + intros _. rewrite !py_len_app. lia.
Qed.


(** *** Sections and key points of [extract_structured_content] *)

Lemma heading_runs_lines (ls : list string) :
  (forall l, In l (fst (heading_runs ls)) -> In l ls /\ is_heading l = false) /\
  (forall t p, In (t, p) (snd (heading_runs ls)) ->
     (exists h, In h ls /\ is_heading h = true /\ t = strip h) /\
     (forall l, In l p -> In l ls /\ is_heading l = false)).
Proof.
  induction ls as [|l ls [IH1 IH2]]; [split; simpl; tauto|].
  cbn [heading_runs]. destruct (heading_runs ls) as [pre rs]. simpl in IH1, IH2.
  destruct (is_heading l) eqn:Hl; split; simpl.
  - tauto.
  - intros t p [Hr|Hr].
    + injection Hr as <- <-. split; [exists l; auto|].
      intros x Hx. destruct (IH1 x Hx). auto.
    + destruct (IH2 t p Hr) as [[h (? & ? & ?)] Hp]. split; [exists h; auto|].
      intros x Hx. destruct (Hp x Hx). auto.
  - intros x [<-|Hx]; [auto|]. destruct (IH1 x Hx). auto.
  - intros t p Hr. destruct (IH2 t p Hr) as [[h (? & ? & ?)] Hp]. split; [exists h; auto|].
    intros x Hx. destruct (Hp x Hx). auto.
Qed.

Lemma extract_sections_runs (text doc_type : string) :
  sc_sections (extract_structured_content text doc_type)
  = if String.eqb text "" || (String.length (strip text) <? 10)%nat then []
    else filter (fun s => negb (is_blank (sec_content s)))
           (map run_section (("Introduction", fst (heading_runs (split_lines text)))
                             :: snd (heading_runs (split_lines text)))).
Proof.
  unfold extract_structured_content.
  destruct (String.eqb text "" || (String.length (strip text) <? 10)%nat); [reflexivity|].
  cbn [sc_sections]. unfold extract_sections.
  rewrite (section_loop_runs (split_lines text) [] "Introduction" ""). reflexivity.
Qed.

(** Every section [extract_structured_content] returns has a body that is
    not blank, made of lines of the text that are not headings, each
    followed by a newline; its title is "Introduction" or a heading line of
    the text, stripped. *)
Theorem extract_structured_content_section_shape (text doc_type : string) :
  Forall (fun sec =>
            is_blank (sec_content sec) = false /\
            (sec_title sec = "Introduction" \/
             exists h, In h (split_lines text) /\ is_heading h = true /\ sec_title sec = strip h) /\
            exists ls, sec_content sec = body_of ls /\
                       forall l, In l ls -> In l (split_lines text) /\ is_heading l = false)
    (sc_sections (extract_structured_content text doc_type)).
Proof.
  rewrite extract_sections_runs.
  destruct (_ || _)%bool; [constructor|].
  apply Forall_forall. intros sec Hs. apply filter_In in Hs as [Hs Hb].
  split; [destruct (is_blank (sec_content sec)); [discriminate | reflexivity]|].
  destruct (heading_runs_lines (split_lines text)) as [H1 H2].
  apply in_map_iff in Hs as [[t p] [<- Hr]]. unfold run_section. cbn [sec_title sec_content fst snd].
  destruct Hr as [Hr|Hr].
  - injection Hr as <- <-. split; [left; reflexivity|]. exists (fst (heading_runs (split_lines text))).
    split; [reflexivity | exact H1].
  - destruct (H2 t p Hr) as [Ht Hp]. split; [right; exact Ht|]. exists p. split; [reflexivity | exact Hp].
Qed.

Lemma replace_nl_length (s : string) : String.length (replace_nl s) = String.length s.
Proof. induction s as [|c t IH]; simpl; [reflexivity | rewrite IH; reflexivity]. Qed.

Lemma first_sentence_prefix (s : string) : prefix (first_sentence s) s = true.
Proof.
  unfold first_sentence. generalize false.
  induction s as [|c t IH]; intros b; simpl; [reflexivity|].
  destruct (b && is_space c)%bool; [reflexivity|].
  cbn [prefix]. destruct (ascii_dec c c); [apply IH | congruence].
Qed.

(** At most 7 key points, each longer than 10 characters: either the
    stripped body of a section, shorter than 200 characters, with its
    newlines turned into spaces, or a prefix of the body of a section
    longer than 200 characters. *)
Theorem extract_structured_content_key_point_origin (text doc_type : string) :
  let sc := extract_structured_content text doc_type in
  (List.length (sc_key_points sc) <= 7)%nat /\
  Forall (fun k =>
            (10 < String.length k)%nat /\
            exists sec, In sec (sc_sections sc) /\
              ((k = replace_nl (strip (sec_content sec)) /\ (String.length k < 200)%nat) \/
               ((200 < String.length (sec_content sec))%nat /\
                prefix k (sec_content sec) = true)))
    (sc_key_points sc).
Proof.
  cbv zeta. unfold extract_structured_content.
  destruct (_ || _)%bool; [split; [simpl; lia | constructor]|].
  cbn [sc_key_points sc_sections]. set (secs := extract_sections _).
  rewrite key_points_of_spec. unfold key_points_spec.
  split; [rewrite length_firstn; lia|].
  apply Forall_forall. intros k Hk. apply in_firstn_in in Hk.
  assert (Hshort : In k (short_points secs) ->
    (10 < String.length k)%nat /\ exists sec, In sec secs /\
      ((k = replace_nl (strip (sec_content sec)) /\ (String.length k < 200)%nat) \/
       ((200 < String.length (sec_content sec))%nat /\ prefix k (sec_content sec) = true))).
  { unfold short_points. intros H. apply in_flat_map in H as [sec [Hsec Hk']].
    destruct ((10 <? String.length (strip (sec_content sec)))%nat
              && (String.length (strip (sec_content sec)) <? 200)%nat)%bool eqn:E;
      [|contradiction].
    destruct Hk' as [<-|[]]. apply andb_prop in E as [E1 E2].
    apply Nat.ltb_lt in E1, E2. rewrite replace_nl_length.
    split; [exact E1|]. exists sec. split; [exact Hsec|]. left. split; [reflexivity | exact E2]. }
  destruct (List.length (short_points secs) <? 3)%nat; [|exact (Hshort Hk)].
  apply in_app_or in Hk as [Hk|Hk]; [exact (Hshort Hk)|].
  apply in_firstn_in in Hk. unfold long_candidates in Hk.
  apply filter_In in Hk as [Hk Hlen]. apply Nat.ltb_lt in Hlen.
  apply in_map_iff in Hk as [sec [<- Hsec]]. apply filter_In in Hsec as [Hsec Hl].
  apply Nat.ltb_lt in Hl.
  split; [exact Hlen|]. exists sec. split; [exact Hsec|]. right.
  split; [exact Hl | apply first_sentence_prefix].
Qed.

(** *** Reading text files and dispatching documents *)

Lemma universal_newlines_cons (c : Z) (t : codepoints) :
  universal_newlines (c :: t)
  = if Z.eqb c 13 then
      match t with
      | c' :: t' => if Z.eqb c' 10 then 10 :: universal_newlines t'
                    else 10 :: universal_newlines t
      | [] => [10]
      end
    else c :: universal_newlines t.
Proof.
  destruct (Z.eqb_spec c 13) as [->|Hc].
  - destruct t as [|c' t']; [reflexivity|].
    destruct (Z.eqb_spec c' 10) as [->|Hc']; [reflexivity|].
    destruct c' as [|p|p]; try reflexivity;
      repeat (destruct p as [p|p|]; try reflexivity); exfalso; apply Hc'; reflexivity.
  - destruct c as [|p|p]; try reflexivity;
      repeat (destruct p as [p|p|]; try reflexivity); exfalso; apply Hc; reflexivity.
Qed.

Lemma universal_newlines_no_cr (s : codepoints) : ~ In 13%Z (universal_newlines s).
Proof.
  remember (List.length s) as n eqn:En. revert s En.
  induction n as [n IH] using lt_wf_ind. intros s En.
  destruct s as [|c t]; [simpl; tauto|].
  assert (Ht : (List.length t < n)%nat) by (subst n; simpl; lia).
  rewrite universal_newlines_cons.
  destruct (Z.eqb_spec c 13) as [->|Hc].
  - destruct t as [|c' t'].
    + simpl. intros [H|[]]. discriminate.
    + destruct (Z.eqb c' 10).
      * intros [H|H]; [discriminate|].
        apply (IH (List.length t') ltac:(simpl in Ht; lia) t' eq_refl H).
      * intros [H|H]; [discriminate|]. exact (IH _ Ht _ eq_refl H).
  - intros [H|H]; [congruence|]. exact (IH _ Ht _ eq_refl H).
Qed.

Lemma universal_newlines_id (s : codepoints) :
  ~ In 13%Z s -> universal_newlines s = s.
Proof.
  induction s as [|c t IH]; intros H; [reflexivity|].
  assert (Hc : c <> 13%Z) by (intros ->; apply H; left; reflexivity).
  assert (Ht : ~ In 13%Z t) by (intros H'; apply H; right; exact H').
  rewrite universal_newlines_cons.
  replace (Z.eqb c 13) with false by (symmetry; apply Z.eqb_neq; exact Hc).
  rewrite IH by exact Ht. reflexivity.
Qed.

Lemma utf8_decode_ascii (mode : errors_mode) (bs : bytes) :
  Forall (fun b => 0 <= b < 128)%Z bs -> decode Utf8 mode bs = Some bs.
Proof.
  unfold decode. induction 1 as [|b t Hb _ IH]; [reflexivity|].
  cbn [List.length utf8_decode_fuel]. unfold utf8_step.
  replace (b <? 128)%Z with true by (symmetry; apply Z.ltb_lt; lia).
  rewrite IH. destruct mode; reflexivity.
Qed.

(** A TXT file is always read, and the text read holds no carriage
    return: the universal-newline translation turns each CR LF pair and
    each lone CR into LF, and applying it again changes nothing. *)
Theorem read_txt_no_carriage_return (bs : bytes) :
  exists t, read_txt bs = inl t /\ ~ In 13%Z t /\ universal_newlines t = t.
Proof.
  unfold read_txt, open_read.
  destruct (decode Utf8 Replace bs) as [t|] eqn:E.
  - exists (universal_newlines t). split; [reflexivity|].
    split; [apply universal_newlines_no_cr|].
    apply universal_newlines_id, universal_newlines_no_cr.
  - exfalso. exact (utf8_replace_total _ _ E).
Qed.

(** A TXT upload of ASCII bytes without a carriage return is read back
    unchanged. *)
Theorem process_document_ascii_txt (u : upload) :
  up_ext u = "txt" ->
  Forall (fun b => 0 <= b < 128 /\ b <> 13)%Z (up_bytes u) ->
  process_document u = TxtDone (up_bytes u).
Proof.
  intros He Hb. unfold process_document. rewrite He. cbn [String.eqb Ascii.eqb Bool.eqb].
  unfold read_txt, open_read.
  rewrite utf8_decode_ascii by (eapply Forall_impl; [|exact Hb]; intros b [H _]; exact H).
  cbn [option_map]. rewrite universal_newlines_id; [reflexivity|].
  intros H. rewrite Forall_forall in Hb. destruct (Hb _ H) as [_ H']. congruence.
Qed.

Lemma process_document_ascii_txt_witness :
  up_ext hello_txt = "txt" /\
  Forall (fun b => 0 <= b < 128 /\ b <> 13)%Z (up_bytes hello_txt) /\
  process_document hello_txt = TxtDone (up_bytes hello_txt).
Proof.
  assert (Hb : Forall (fun b => 0 <= b < 128 /\ b <> 13)%Z (up_bytes hello_txt)).
  { repeat constructor; discriminate. }
  split; [reflexivity|]. split; [exact Hb|].
  apply process_document_ascii_txt; [reflexivity | exact Hb].
Defined.

(** A PDF of at most 15 MB is processed with image extraction, is not
    flagged to skip the AI step, and its status is "success" with no
    error; its text, images and structured content are those of
    [process_pdf]. *)
Theorem process_document_small_pdf (u : upload) :
  up_ext u = "pdf" -> (up_size u <= 15 * mb)%Z ->
  process_document u
  = PdfDone (mk_pdf_result (pdf_text (up_pdf u)) (pdf_images (up_pdf u))
               (extract_structured_content (pdf_text (up_pdf u)) "pdf")
               false "success" None) [false].
Proof.
  intros He Hs. unfold process_document. rewrite He. cbn [String.eqb Ascii.eqb Bool.eqb].
  unfold process_document_pdf.
  replace (15 * mb <? up_size u)%Z with false by (symmetry; apply Z.ltb_ge; exact Hs).
  replace (25 * mb <? up_size u)%Z with false by (symmetry; apply Z.ltb_ge; unfold mb in *; lia).
  reflexivity.
Qed.

Lemma process_document_small_pdf_witness :
  up_ext small_pdf = "pdf" /\ (up_size small_pdf <= 15 * mb)%Z /\
  process_document small_pdf
  = PdfDone (mk_pdf_result (pdf_text (up_pdf small_pdf)) (pdf_images (up_pdf small_pdf))
               (extract_structured_content (pdf_text (up_pdf small_pdf)) "pdf")
               false "success" None) [false].
Proof.
  split; [reflexivity|]. split; [unfold small_pdf, mb; cbn; lia|].
  apply process_document_small_pdf; [reflexivity | unfold small_pdf, mb; cbn; lia].
Defined.

(** The exception [process_document] re-raises always carries the
    original error text inside its message; it is a [MemoryError] only
    for a text that mentions memory, a [TimeoutError] only for one that
    mentions a timeout or time, a [ConnectionError] only for one that
    mentions a connection, a reset or something broken; a text that
    mentions a PDF always gives a [ValueError]. *)
Theorem reraise_message (e : string) :
  (exists pre suf, snd (reraise e) = (pre ++ e ++ suf)%string) /\
  (fst (reraise e) = MemoryError ->
     contains "memory" (lower e) = true \/ contains "Memory" e = true) /\
  (fst (reraise e) = TimeoutError ->
     contains "timeout" (lower e) = true \/ contains "time" (lower e) = true) /\
  (fst (reraise e) = ConnectionError ->
     contains "connection" (lower e) = true \/ contains "reset" (lower e) = true \/
     contains "broken" (lower e) = true) /\
  ((contains "PDF" e || contains "pdf" e)%bool = true -> fst (reraise e) = ValueError).
Proof.
  unfold reraise. cbv zeta.
  destruct (contains "PDF" e || contains "pdf" e)%bool eqn:E1;
    [split; [eexists _, _; reflexivity|]; repeat split; discriminate|].
  destruct (contains "Word" e || contains "docx" e || contains "DOCX" e)%bool;
    [split; [eexists _, _; reflexivity|]; repeat split; discriminate|].
  destruct (contains "PowerPoint" e || contains "pptx" e || contains "PPTX" e)%bool;
    [split; [eexists _, _; reflexivity|]; repeat split; discriminate|].
  destruct (contains "Image" e || contains "image" e || contains "img" e
            || contains "IMG" e)%bool;
    [split; [eexists _, _; reflexivity|]; repeat split; discriminate|].
  destruct (contains "memory" (lower e) || contains "Memory" e)%bool eqn:E5.
  { split; [eexists _, _; reflexivity|]. split; [|repeat split; discriminate].
    intros _. apply orb_true_iff in E5. exact E5. }
  destruct (contains "timeout" (lower e) || contains "time" (lower e))%bool eqn:E6.
  { split; [eexists _, _; reflexivity|]. split; [discriminate|].
    split; [|repeat split; discriminate].
    intros _. apply orb_true_iff in E6. exact E6. }
  destruct (contains "connection" (lower e) || contains "reset" (lower e)
            || contains "broken" (lower e))%bool eqn:E7.
  { split; [eexists _, _; reflexivity|]. split; [discriminate|]. split; [discriminate|].
    split; [|discriminate].
    intros _. apply orb_true_iff in E7 as [E7|E7]; [apply orb_true_iff in E7 as [E7|E7]|];
      auto. }
  split; [eexists _, _; reflexivity|]. repeat split; discriminate.
Qed.

(** *** When [generate_case_study] calls the backend *)

(** The backend is called at most once: exactly when a client is
    configured and the input is a dict whose document is not flagged to
    skip the AI step, is at most 100 MB, has a non-empty text of at most
    200000 characters; the call receives the prepared text. *)
Theorem generate_case_study_backend_calls (openai : option backend) (input : doc_input)
  (audience : string) :
  snd (generate_case_study openai input audience)
  = match openai, input with
    | Some _, DDict d =>
        if negb (get_skip_ai d) && (get_file_size d <=? 100 * 1024 * 1024)%Z
           && negb (String.eqb (get_text d) "") && (py_len (get_text d) <=? 200000)%Z
        then [prepared_text d] else []
    | _, _ => []
    end.
Proof.
  unfold generate_case_study.
  destruct input as [| |d]; [destruct openai; reflexivity | destruct openai; reflexivity|].
  destruct (dd_is_empty d) eqn:He.
  { apply dd_is_empty_spec in He. subst d. destruct openai; reflexivity. }
  destruct (get_skip_ai d); [destruct openai; reflexivity|].
  rewrite (Z.leb_antisym _ (get_file_size d)), (Z.leb_antisym _ (py_len (get_text d))).
  destruct (100 * 1024 * 1024 <? get_file_size d)%Z; [destruct openai; reflexivity|].
  destruct (String.eqb (get_text d) ""); [destruct openai; reflexivity|].
  destruct (200000 <? py_len (get_text d))%Z; [destruct openai; reflexivity|].
  destruct openai as [client|]; [|reflexivity]. cbn [negb andb].
  destruct (client (prepared_text d) audience (is_large_input d)); try reflexivity;
    destruct (openai_generation _ _ _ _ _) as [res|]; try reflexivity;
    destruct (nonempty res); reflexivity.
Qed.

(** *** The PPTX passes of the fallback generator *)

Definition bucket_lines (b : buckets) : list string :=
  (b_challenge b ++ b_approach b ++ b_solution b ++ b_outcomes b)%list.

Ltac perm_tail :=
  rewrite <- ?app_assoc; repeat apply Permutation_app_head;
  match goal with
  | |- Permutation (?c ++ ?m) _ =>
      apply Permutation_trans with (m ++ c)%list;
      [apply Permutation_app_comm | rewrite <- ?app_assoc; reflexivity]
  | |- _ => reflexivity
  end.

Lemma pass2_step_perm (b : buckets) (kv : string * list string) :
  Permutation (bucket_lines (pass2_step b kv)) (bucket_lines b ++ snd kv).
Proof.
  destruct b as [ch ap so ou], kv as [title content]. cbn [pass2_step snd].
  repeat match goal with |- context [if ?c then _ else _] => destruct c end;
    unfold bucket_lines; cbn [b_challenge b_approach b_solution b_outcomes]; perm_tail.
Qed.

Lemma pass2_fold_perm (od : slide_dict) (b : buckets) :
  Permutation (bucket_lines (fold_left pass2_step od b)) (bucket_lines b ++ flat_map snd od).
Proof.
  revert b. induction od as [|kv od IH]; intros b; cbn [fold_left flat_map].
  - rewrite app_nil_r. reflexivity.
  - rewrite IH, pass2_step_perm, app_assoc. reflexivity.
Qed.

(** A line the first pass keeps: a stripped, non-empty line of the text
    with no footer marker. *)
Definition kept_line (text l : string) : Prop :=
  In l (map strip (split_lines text)) /\ l <> ""%string /\
  existsb (fun f => contains f (lower l)) footer_texts = false.

Definition pass1_inv (text : string) (st : pass1_state) : Prop :=
  (forall t, In t (p1_titles st) ->
     kept_line text t /\ (String.length t < 60)%nat /\ endswith t "." = false /\
     looks_like_title t = true) /\
  (forall kv, In kv (p1_content st) -> forall l, In l (snd kv) -> kept_line text l).

Lemma od_reset_values (k : string) (od : slide_dict) (kv : string * list string) :
  In kv (od_reset k od) -> snd kv = [] \/ In kv od.
Proof.
  unfold od_reset. destruct (existsb _ od).
  - intros H. apply in_map_iff in H as [kv' [<- H]].
    destruct (String.eqb (fst kv') k); [left; reflexivity | right; exact H].
  - intros H. apply in_app_or in H as [H|[<-|[]]]; [right; exact H | left; reflexivity].
Qed.

Lemma od_append_values (k line : string) (od : slide_dict) (kv : string * list string) :
  In kv (od_append k line od) ->
  exists kv', In kv' od /\ (snd kv = snd kv' \/ snd kv = (snd kv' ++ [line])%list).
Proof.
  unfold od_append. intros H. apply in_map_iff in H as [kv' [<- H]]. exists kv'.
  split; [exact H|]. destruct (String.eqb (fst kv') k); [right | left]; reflexivity.
Qed.

Lemma pass1_step_inv (text raw : string) (st : pass1_state) :
  In raw (split_lines text) -> pass1_inv text st -> pass1_inv text (pass1_step st raw).
Proof.
  intros Hraw [Ht Hc]. unfold pass1_step. cbv zeta.
  assert (Hk : String.eqb (strip raw) "" = false ->
               existsb (fun f => contains f (lower (strip raw))) footer_texts = false ->
               kept_line text (strip raw)).
  { intros H1 H2. split; [apply in_map; exact Hraw|]. split; [|exact H2].
    apply String.eqb_neq. exact H1. }
  destruct (String.eqb (strip raw) "") eqn:E1; [split; assumption|].
  destruct (existsb _ footer_texts) eqn:E2; [split; assumption|].
  destruct ((String.length (strip raw) <? 60)%nat && negb (endswith (strip raw) "."))%bool
    eqn:E3.
  - destruct (looks_like_title (strip raw)) eqn:E4; [|split; assumption].
    apply andb_prop in E3 as [E3 E3']. apply Nat.ltb_lt in E3.
    split; cbn [p1_titles p1_content].
    + intros t H. apply in_app_or in H as [H|[<-|[]]]; [exact (Ht t H)|].
      split; [exact (Hk eq_refl eq_refl)|]. split; [exact E3|].
      split; [destruct (endswith _ _); [discriminate | reflexivity] | exact E4].
    + intros kv H l Hl. apply od_reset_values in H as [H|H].
      * rewrite H in Hl. contradiction.
      * exact (Hc kv H l Hl).
  - destruct (p1_current st) as [t|]; [|split; assumption].
    split; cbn [p1_titles p1_content]; [exact Ht|].
    intros kv H l Hl. apply od_append_values in H as [kv' [H [Hs|Hs]]]; rewrite Hs in Hl.
    + exact (Hc kv' H l Hl).
    + apply in_app_or in Hl as [Hl|[<-|[]]]; [exact (Hc kv' H l Hl)|].
      exact (Hk eq_refl eq_refl).
Qed.

Lemma pass1_fold_inv (text : string) (lines : list string) (st : pass1_state) :
  (forall r, In r lines -> In r (split_lines text)) ->
  pass1_inv text st -> pass1_inv text (fold_left pass1_step lines st).
Proof.
  revert st. induction lines as [|r lines IH]; intros st Hl Hst; [exact Hst|].
  cbn [fold_left]. apply IH; [intros x Hx; apply Hl; right; exact Hx|].
  apply pass1_step_inv; [apply Hl; left; reflexivity | exact Hst].
Qed.

(** In the PPTX branch of the fallback generator, every slide title is a
    stripped, non-empty line of the text, shorter than 60 characters, not
    ending with a period and holding no footer marker; every line of
    slide content is a stripped, non-empty line of the text with no
    footer marker; and the second pass puts each line of slide content
    into exactly one of the challenge, approach, solution and outcomes
    lists. *)
Theorem pptx_passes (text : string) (kps : list string) :
  let st := pass1 text in
  let b := snd (pptx_fields text kps) in
  (forall t, In t (p1_titles st) ->
     kept_line text t /\ (String.length t < 60)%nat /\ endswith t "." = false /\
     looks_like_title t = true) /\
  (forall l, In l (flat_map snd (p1_content st)) -> kept_line text l) /\
  Permutation (bucket_lines b) (flat_map snd (p1_content st)).
Proof.
  cbv zeta.
  assert (Hinv : pass1_inv text (pass1 text)).
  { apply pass1_fold_inv; [intros r H; exact H|].
    split; cbn [p1_titles p1_content]; intros; contradiction. }
  destruct Hinv as [Ht Hc].
  split; [exact Ht|]. split.
  - intros l H. apply in_flat_map in H as [kv [H Hl]]. exact (Hc kv H l Hl).
  - assert (Hs : snd (pptx_fields text kps)
                 = fold_left pass2_step (p1_content (pass1 text)) (mk_buckets [] [] [] [])).
    { unfold pptx_fields. cbv zeta. destruct (fold_left pass2_step _ _); reflexivity. }
    rewrite Hs, pass2_fold_perm. reflexivity.
Qed.

(** *** The title of [extract_structured_content] *)

Fixpoint all_chars (p : ascii -> bool) (s : string) : bool :=
  match s with
  | EmptyString => true
  | String c t => p c && all_chars p t
  end.

Lemma all_chars_lstrip (p : ascii -> bool) (s : string) :
  all_chars p (lstrip_by p s) = all_chars p s.
Proof.
  induction s as [|c t IH]; simpl; [reflexivity|].
  destruct (p c) eqn:E; simpl; [exact IH | rewrite E; reflexivity].
Qed.

Lemma all_chars_rev_str (p : ascii -> bool) (s acc : string) :
  all_chars p (rev_str s acc) = all_chars p s && all_chars p acc.
Proof.
  revert acc. induction s as [|c t IH]; intros acc; simpl; [reflexivity|].
  rewrite IH. simpl. destruct (p c), (all_chars p t), (all_chars p acc); reflexivity.
Qed.

Lemma all_chars_reverse (p : ascii -> bool) (s : string) :
  all_chars p (reverse s) = all_chars p s.
Proof. unfold reverse. rewrite all_chars_rev_str. simpl. apply andb_true_r. Qed.

Lemma lstrip_all (p : ascii -> bool) (s : string) :
  all_chars p s = true -> lstrip_by p s = "".
Proof.
  induction s as [|c t IH]; simpl; [reflexivity|].
  intros H. apply andb_prop in H as [-> H]. exact (IH H).
Qed.

Lemma is_blank_all_space (s : string) : is_blank s = all_chars is_space s.
Proof.
  unfold is_blank, strip.
  destruct (all_chars is_space s) eqn:E.
  - rewrite (lstrip_all is_space s E). reflexivity.
  - destruct (reverse (lstrip_by is_space (reverse (lstrip_by is_space s)))) eqn:R;
      [|reflexivity].
    exfalso.
    assert (H : lstrip_by is_space (reverse (lstrip_by is_space s)) = "").
    { destruct (lstrip_by is_space (reverse (lstrip_by is_space s))) as [|c t] eqn:R';
        [reflexivity|].
      unfold reverse in R. cbn [rev_str] in R. rewrite rev_str_acc in R.
      apply (f_equal String.length) in R. rewrite string_length_app in R.
      simpl in R. lia. }
    assert (H' : all_chars is_space (lstrip_by is_space (reverse (lstrip_by is_space s)))
                 = true) by (rewrite H; reflexivity).
    rewrite all_chars_lstrip, all_chars_reverse, all_chars_lstrip in H'. congruence.
Qed.

Lemma split_lines_blank (s cur : string) :
  Forall (fun l => is_blank l = true) (split_char_aux "010" s cur) ->
  all_chars is_space cur = true /\ all_chars is_space s = true.
Proof.
  revert cur. induction s as [|c t IH]; intros cur H; cbn [split_char_aux] in H.
  - inversion H as [|? ? H1]; subst. rewrite is_blank_all_space, all_chars_reverse in H1.
    split; [exact H1 | reflexivity].
  - destruct (Ascii.eqb c "010") eqn:E.
    + inversion H as [|? ? H1 H2]; subst.
      rewrite is_blank_all_space, all_chars_reverse in H1.
      apply Ascii.eqb_eq in E. subst c.
      split; [exact H1|]. simpl. exact (proj2 (IH "" H2)).
    + destruct (IH _ H) as [H1 H2]. simpl in H1. apply andb_prop in H1 as [Hc Hcur].
      split; [exact Hcur|]. simpl. rewrite Hc. exact H2.
Qed.

Lemma filter_first {A} (f : A -> bool) (l : list A) (x : A) (r : list A) :
  filter f l = x :: r ->
  exists pre post, l = (pre ++ x :: post)%list /\ Forall (fun y => f y = false) pre /\ f x = true.
Proof.
  revert r. induction l as [|y l IH]; intros r H; [discriminate|].
  simpl in H. destruct (f y) eqn:E.
  - injection H as -> _. exists [], l. split; [reflexivity|]. split; [constructor | exact E].
  - destruct (IH r H) as (pre & post & -> & Hp & Hx).
    exists (y :: pre), post. split; [reflexivity|]. split; [constructor; assumption | exact Hx].
Qed.

Lemma filter_nil_forall {A} (f : A -> bool) (l : list A) :
  filter f l = [] -> Forall (fun y => f y = false) l.
Proof.
  induction l as [|y l IH]; intros H; [constructor|].
  simpl in H. destruct (f y) eqn:E; [discriminate|]. constructor; [exact E | exact (IH H)].
Qed.

(** [extract_structured_content] gives no title exactly when the text is
    empty or shorter than 10 characters once stripped; otherwise the
    title is the first line of the text that is not blank, stripped. *)
Theorem extract_structured_content_title (text doc_type : string) :
  (sc_title (extract_structured_content text doc_type) = None <->
   (String.eqb text "" || (String.length (strip text) <? 10)%nat)%bool = true) /\
  (forall t, sc_title (extract_structured_content text doc_type) = Some t ->
   exists pre l post, split_lines text = (pre ++ l :: post)%list /\
     Forall (fun x => is_blank x = true) pre /\ is_blank l = false /\ t = strip l).
Proof.
  unfold extract_structured_content.
  destruct (String.eqb text "" || (String.length (strip text) <? 10)%nat)%bool eqn:G.
  - split; [split; reflexivity | intros t H; discriminate H].
  - cbn [sc_title]. apply orb_false_iff in G as [_ G]. apply Nat.ltb_ge in G.
    destruct (filter (fun l => negb (is_blank l)) (split_lines text)) as [|l r] eqn:F.
    + exfalso. apply filter_nil_forall in F.
      assert (Hb : Forall (fun l => is_blank l = true) (split_lines text)).
      { eapply Forall_impl; [|exact F]. intros x Hx. cbv beta in *. destruct (is_blank x); [reflexivity | discriminate Hx]. }
      destruct (split_lines_blank text "" Hb) as [_ Hs].
      unfold strip in G. rewrite (lstrip_all is_space text Hs) in G. simpl in G. lia.
    + split; [split; intros H; discriminate H|].
      intros t Ht. cbn [map] in Ht. injection Ht as <-.
      destruct (filter_first _ _ _ _ F) as (pre & post & E & Hp & Hl).
      exists pre, l, post. split; [exact E|]. split.
      * eapply Forall_impl; [|exact Hp]. intros x Hx. cbv beta in *. destruct (is_blank x); [reflexivity | discriminate Hx].
      * split; [destruct (is_blank l); [discriminate | reflexivity] | reflexivity].
Qed.

(** *** The images of a generated case study *)

Lemma dict_get_set (d : dict) (k : string) (v : json) :
  dict_get (dict_set d k v) k = Some v.
Proof.
  induction d as [|[k' v'] t IH]; simpl; [rewrite String.eqb_refl; reflexivity|].
  destruct (String.eqb k k') eqn:E; simpl; rewrite E; [reflexivity | exact IH].
Qed.

(** For a dict input, [generate_case_study] always returns a case study,
    from the backend or from the fallback, whose images are at most 3 of
    the document's images, each from a different position. *)
Theorem generate_case_study_images (openai : option backend) (d : doc_data)
  (audience : string) :
  exists cs sel,
    fst (generate_case_study openai (DDict d) audience) = Some cs /\
    dict_get cs "images" = Some (JArr (map image_json sel)) /\
    (List.length sel <= 3)%nat /\
    exists rest, Permutation (get_images d) (sel ++ rest).
Proof.
  assert (FB : forall d', get_images d' = get_images d ->
            exists cs sel, _generate_fallback_case_study d' audience = Some cs /\
              dict_get cs "images" = Some (JArr (map image_json sel)) /\
              (List.length sel <= 3)%nat /\
              exists rest, Permutation (get_images d) (sel ++ rest)).
  { intros d' Hd. destruct (fallback_images_sub d' audience)
      as (cs & sel & kps & H1 & H2 & H3 & H4 & _).
    exists cs, sel. rewrite <- Hd. auto. }
  unfold generate_case_study. cbn [fst].
  destruct (dd_is_empty d) eqn:He.
  { apply dd_is_empty_spec in He. subst d. apply FB. reflexivity. }
  destruct (get_skip_ai d); [apply FB; reflexivity|].
  destruct (100 * 1024 * 1024 <? get_file_size d)%Z; [apply FB; reflexivity|].
  destruct (String.eqb (get_text d) ""); [apply FB; reflexivity|].
  destruct (200000 <? py_len (get_text d))%Z; [apply FB; reflexivity|].
  destruct openai as [client|]; [|apply FB; reflexivity].
  destruct (client (prepared_text d) audience (is_large_input d)) as [e|parsed|] eqn:Hc;
    unfold openai_generation, _generate_with_openai; rewrite ?Hc;
    [apply FB; reflexivity | | apply FB; reflexivity].
  - destruct parsed as [v|]; [|apply FB; reflexivity].
    destruct (truthy v); [|apply FB; reflexivity].
    destruct (select_key_images (get_images d) v 3) as [sel|] eqn:Es;
      [|apply FB; reflexivity].
    destruct v as [| | | | |kvs]; try (apply FB; reflexivity).
    rewrite nonempty_dict_set.
    apply select_key_images_sub in Es as [Hl Hp].
    exists (dict_set kvs "images" (JArr (map image_json sel))), sel.
    split; [reflexivity|]. split; [apply dict_get_set|]. split; [lia | exact Hp].
Qed.
